(** * Weather classification and alert engine (mod6_labs/main.py)

    A shallow embedding of the decision logic of [mod6_labs/main.py]:
    the module-level tables [WEATHER_MAPPING] and [ALERT_THRESHOLDS], the
    method [check_alerts], and the part of [display_weather] that reads the
    provider payload and picks the visual category. *)

From Stdlib Require Import ZArith QArith Lqa String Ascii Bool List.
From Stdlib Require Import SpecFloat DecimalString.
From stdpp Require Import base option gmap strings.

Local Open Scope string_scope.
Local Open Scope Z_scope.

(** ** Python values *)

(** Exceptions the modelled statements can raise. *)
Inductive exn : Type :=
| KeyError
| IndexError
| TypeError.

Inductive result (A : Type) : Type :=
| Ok (a : A)
| Raise (e : exn).

Arguments Ok {A} a.
Arguments Raise {A} e.

#[global] Instance result_ret : MRet result := fun A a => Ok a.
#[global] Instance result_bind : MBind result := fun A B k m =>
  match m with
  | Ok a => k a
  | Raise e => Raise e
  end.

(** A Python number: an [int], or a [float] as an IEEE 754 binary64 datum. *)
Inductive pynum : Type :=
| PyInt (z : Z)
| PyFloat (f : spec_float).

(** The mathematical value of a number.  Python compares numbers (an [int]
    against a [float] included) on their exact values; a NaN compares false
    with everything. *)
Inductive xvalue : Type :=
| XNaN
| XNegInf
| XFin (q : Q)
| XPosInf.

Definition pow2 (e : Z) : Q :=
  match e with
  | Z0 => 1%Q
  | Zpos p => inject_Z (Z.pow_pos 2 p)
  | Zneg p => (1 # Pos.pow 2 p)%Q
  end.

Definition SF2X (f : spec_float) : xvalue :=
  match f with
  | S754_zero _ => XFin 0%Q
  | S754_infinity s => if s then XNegInf else XPosInf
  | S754_nan => XNaN
  | S754_finite s m e => XFin (inject_Z (cond_Zopp s (Zpos m)) * pow2 e)%Q
  end.

Definition num_value (n : pynum) : xvalue :=
  match n with
  | PyInt z => XFin (inject_Z z)
  | PyFloat f => SF2X f
  end.

(** [a <= b] on values. *)
Definition xle (a b : xvalue) : bool :=
  match a, b with
  | XNaN, _ | _, XNaN => false
  | XNegInf, _ => true
  | _, XPosInf => true
  | XFin p, XFin q => Qle_bool p q
  | _, _ => false
  end.

(** [a < b] on values. *)
Definition xlt (a b : xvalue) : bool :=
  match a, b with
  | XNaN, _ | _, XNaN => false
  | XPosInf, _ => false
  | _, XNegInf => false
  | XFin p, XFin q => negb (Qle_bool q p)
  | _, _ => true
  end.

(** Python's [a <= b], [a >= b], [a < b] and [a == b] on numbers. *)
Definition py_le (a b : pynum) : bool := xle (num_value a) (num_value b).
Definition py_ge (a b : pynum) : bool := xle (num_value b) (num_value a).
Definition py_lt (a b : pynum) : bool := xlt (num_value a) (num_value b).
Definition py_eq (a b : pynum) : bool := py_le a b && py_ge a b.

(** The float literal of an integer-valued constant such as [35.0]. *)
Definition float_lit (z : Z) : spec_float := binary_normalize 53 1024 z 0 false.

(** The members of flet's colour enumeration that the module names
    ([ft.colors.DEEP_PURPLE_800] and so on). *)
Inductive Colors : Type :=
| DEEP_PURPLE_800 | BLUE_GREY_700 | INDIGO_600 | LIGHT_BLUE_200
| BLUE_GREY_400 | YELLOW_400 | BLUE_GREY_300 | WHITE
| RED_700 | BLUE_700 | ORANGE_700 | YELLOW_800.

(** The values the module's dict literals hold.  A [str] is a sequence of
    characters, one [ascii] each; the emoji of the literals are kept as the
    bytes the source file has for them. *)
Inductive pyvalue : Type :=
| VNum (n : pynum)
| VStr (s : string)
| VColor (c : Colors).

(** A dict with [str] keys. *)
Abbreviation pydict := (gmap string pyvalue).

(** [d[k]]: raises [KeyError] on a missing key. *)
Definition subscript {V : Type} (d : gmap string V) (k : string) : result V :=
  match d !! k with
  | Some v => Ok v
  | None => Raise KeyError
  end.

(** [d.get(k, dflt)]. *)
Definition dict_get {V : Type} (d : gmap string V) (k : string) (dflt : V) : V :=
  match d !! k with
  | Some v => v
  | None => dflt
  end.

(** [temp >= v] and [temp <= v] against a value read from a table: ordering
    a number against a [str] raises [TypeError]. *)
Definition ge_value (temp : pynum) (v : pyvalue) : result bool :=
  match v with
  | VNum n => Ok (py_ge temp n)
  | _ => Raise TypeError
  end.

Definition le_value (temp : pynum) (v : pyvalue) : result bool :=
  match v with
  | VNum n => Ok (py_le temp n)
  | _ => Raise TypeError
  end.

(** [s.startswith(p)] for a [str] prefix. *)
Definition startswith (s p : string) : bool := String.prefix p s.

(** [s.startswith(v)] for a prefix read from a table: a number is not a
    prefix ([TypeError]); neither does any table store a colour there. *)
Definition startswith_value (s : string) (v : pyvalue) : result bool :=
  match v with
  | VStr p => Ok (startswith s p)
  | _ => Raise TypeError
  end.

(** [s.startswith((p1, ..., pn))]: some member of the tuple is a prefix. *)
Definition startswith_any (s : string) (ps : list string) : bool :=
  existsb (startswith s) ps.

(** ** The module-level tables *)

(** The rows of [WEATHER_MAPPING], one name per key of the literal. *)
Definition storm_entry : pydict :=
  {[ "color" := VColor DEEP_PURPLE_800; "icon" := VStr "⛈️" ]}.

Definition drizzle_entry : pydict :=
  {[ "color" := VColor BLUE_GREY_700; "icon" := VStr "🌧️" ]}.

Definition rain_entry : pydict :=
  {[ "color" := VColor INDIGO_600; "icon" := VStr "☔" ]}.

Definition snow_entry : pydict :=
  {[ "color" := VColor LIGHT_BLUE_200; "icon" := VStr "❄️" ]}.

Definition mist_entry : pydict :=
  {[ "color" := VColor BLUE_GREY_400; "icon" := VStr "🌫️" ]}.

Definition clear_sky_entry : pydict :=
  {[ "color" := VColor YELLOW_400; "icon" := VStr "☀️" ]}.

Definition clouds_entry : pydict :=
  {[ "color" := VColor BLUE_GREY_300; "icon" := VStr "☁️" ]}.

Definition default_entry : pydict :=
  {[ "color" := VColor WHITE; "icon" := VStr "❓" ]}.

Definition WEATHER_MAPPING : gmap string pydict :=
  {[ "2" := storm_entry;
     "3" := drizzle_entry;
     "5" := rain_entry;
     "6" := snow_entry;
     "7" := mist_entry;
     "800" := clear_sky_entry;
     "8" := clouds_entry;
     "default" := default_entry ]}.

Definition HEAT_alert : pydict :=
  {[ "temp" := VNum (PyFloat (float_lit 35));
     "color" := VColor RED_700;
     "recommendation" :=
       VStr "🔥 EXTREME HEAT WARNING! Stay hydrated and limit outdoor activity." ]}.

Definition COLD_alert : pydict :=
  {[ "temp" := VNum (PyFloat (float_lit 5));
     "color" := VColor BLUE_700;
     "recommendation" :=
       VStr "🥶 COLD WARNING! Wear warm layers and protect exposed skin." ]}.

Definition RAIN_alert : pydict :=
  {[ "group_id_prefix" := VStr "5";
     "color" := VColor ORANGE_700;
     "recommendation" :=
       VStr "🌧️ Heavy Rain Expected. Bring an umbrella and drive safely." ]}.

Definition SUN_alert : pydict :=
  {[ "uv_temp" := VNum (PyFloat (float_lit 28));
     "color" := VColor YELLOW_800;
     "recommendation" :=
       VStr "☀️ High UV Index expected. Wear sunscreen and a hat." ]}.

Definition ALERT_THRESHOLDS : gmap string pydict :=
  {[ "HEAT" := HEAT_alert; "COLD" := COLD_alert;
     "RAIN" := RAIN_alert; "SUN" := SUN_alert ]}.

(** ** [check_alerts] *)

(** The body of [WeatherApp.check_alerts], reading the thresholds from the
    table [AT]; [Ok None] is the method's [return None]. *)
Definition check_alerts_in (AT : gmap string pydict)
    (temp : pynum) (weather_id : string) : result (option pydict) :=
  heat ← subscript AT "HEAT";
  heat_temp ← subscript heat "temp";
  is_hot ← ge_value temp heat_temp;
  if is_hot : bool then (alert ← subscript AT "HEAT"; mret (Some alert)) else
  cold ← subscript AT "COLD";
  cold_temp ← subscript cold "temp";
  is_cold ← le_value temp cold_temp;
  if is_cold : bool then (alert ← subscript AT "COLD"; mret (Some alert)) else
  rain ← subscript AT "RAIN";
  rain_prefix ← subscript rain "group_id_prefix";
  is_rain ← startswith_value weather_id rain_prefix;
  if (is_rain : bool) || startswith weather_id "2"
  then (alert ← subscript AT "RAIN"; mret (Some alert)) else
  sun ← subscript AT "SUN";
  uv_temp ← subscript sun "uv_temp";
  is_warm ← ge_value temp uv_temp;
  if (is_warm : bool) && negb (startswith_any weather_id ["6"; "2"; "5"])
  then (alert ← subscript AT "SUN"; mret (Some alert)) else
  mret None.

Definition check_alerts : pynum -> string -> result (option pydict) :=
  check_alerts_in ALERT_THRESHOLDS.

(** ** The category choice of [display_weather] *)

(** [weather_id[0] if weather_id else "default"]. *)
Definition category_key (weather_id : string) : string :=
  match weather_id with
  | String c _ => String c EmptyString
  | EmptyString => "default"
  end.

(** The choice of [mapping] in [display_weather] (the [if]/[else] on
    [weather_id == "800"]), reading the table [WM].  The default handed to
    [.get] is itself a subscript, evaluated before the lookup. *)
Definition classify_in (WM : gmap string pydict) (weather_id : string)
    : result pydict :=
  if decide (weather_id = "800") then subscript WM "800" else
  let key := category_key weather_id in
  dflt ← subscript WM "default";
  mret (dict_get WM key dflt).

Definition classify : string -> result pydict := classify_in WEATHER_MAPPING.

(** ** The payload and what [display_weather] passes on *)

(** The provider's payload, by the keys that reach the two decisions:
    [data["main"]["temp"]] and [data["weather"][i]["id"]].  Each key may be
    missing; the provider sends the id as an integer. *)
Record main_section : Type := { temp : option pynum }.
Record weather_entry : Type := { entry_id : option Z }.
Record payload : Type :=
  { main : option main_section;
    weather : option (list weather_entry) }.

(** [str(n)] for an [int]. *)
Definition str_int (z : Z) : string := NilEmpty.string_of_int (Z.to_int z).

(** [temp = data.get("main", {}).get("temp", 0)]. *)
Definition read_temp (data : payload) : pynum :=
  let main_dict := default {| temp := None |} (main data) in
  default (PyInt 0) (temp main_dict).

(** [weather_id = str(data.get("weather", [{}])[0].get("id", "0"))];
    indexing an empty list raises [IndexError]. *)
Definition read_weather_id (data : payload) : result string :=
  match default [ {| entry_id := None |} ] (weather data) with
  | [] => Raise IndexError
  | first :: _ =>
      Ok match entry_id first with
         | Some n => str_int n
         | None => "0"
         end
  end.

(** The arguments [display_weather] computes for [check_alerts] and for the
    category choice. *)
Definition core_inputs (data : payload) : result (pynum * string) :=
  let temp := read_temp data in
  weather_id ← read_weather_id data;
  mret (temp, weather_id).

(** What [display_weather] hands to the widgets: background colour, icon
    and the alert, if any. *)
Record view : Type :=
  { new_bgcolor : pyvalue;
    custom_icon : pyvalue;
    alert : option pydict }.

(** [display_weather], by what decides the colour, the icon and the banner:
    the reads of the payload, the choice of [mapping], its two subscripts
    and the call of [check_alerts]. *)
Definition display_weather (data : payload) : result view :=
  inputs ← core_inputs data;
  let temp := fst inputs in
  let weather_id := snd inputs in
  mapping ← classify weather_id;
  bg ← subscript mapping "color";
  icon ← subscript mapping "icon";
  al ← check_alerts temp weather_id;
  mret {| new_bgcolor := bg; custom_icon := icon; alert := al |}.

(** ** The rules of the alert evaluator, as the specification words them *)

Inductive rule_name : Type := HEAT | COLD | RAIN | SUN.

Definition alert_of (r : rule_name) : pydict :=
  match r with
  | HEAT => HEAT_alert
  | COLD => COLD_alert
  | RAIN => RAIN_alert
  | SUN => SUN_alert
  end.

(** The thresholds 35.0, 28.0 and 5.0. *)
Definition f35 : pynum := PyFloat (float_lit 35).
Definition f28 : pynum := PyFloat (float_lit 28).
Definition f5 : pynum := PyFloat (float_lit 5).

(** The predicate of each rule over (temperature, condition code). *)
Definition rule_matches (r : rule_name) (t : pynum) (c : string) : bool :=
  match r with
  | HEAT => py_ge t f35
  | COLD => py_le t f5
  | RAIN => startswith c "5" || startswith c "2"
  | SUN => py_ge t f28
           && negb (startswith c "6" || startswith c "2" || startswith c "5")
  end.

(** The ordered rule list. *)
Definition rule_order : list rule_name := [HEAT; COLD; RAIN; SUN].

(** The evaluator as the specification words it: the alert of the first rule
    of the list that matches, or none. *)
Definition evaluate_spec (t : pynum) (c : string) : option pydict :=
  alert_of <$> List.find (fun r => rule_matches r t c) rule_order.

(** The items of [WEATHER_MAPPING], in the order of the literal. *)
Definition category_rows : list (string * pydict) :=
  [("2", storm_entry); ("3", drizzle_entry); ("5", rain_entry);
   ("6", snow_entry); ("7", mist_entry); ("800", clear_sky_entry);
   ("8", clouds_entry); ("default", default_entry)].

(** [mapping["color"]] and [mapping["icon"]] as lookups. *)
Definition color_of (e : pydict) : option pyvalue := e !! "color".
Definition icon_of (e : pydict) : option pyvalue := e !! "icon".

(** ** Missing fields of the payload *)

(** The temperature field is absent: no ["main"] section, or one without
    ["temp"]. *)
Definition temp_absent (data : payload) : bool :=
  match main data with
  | None => true
  | Some m => match temp m with None => true | Some _ => false end
  end.

(** The condition-code field is absent: no ["weather"] list, or a first
    entry without ["id"]. *)
Definition id_absent (data : payload) : bool :=
  match weather data with
  | None => true
  | Some (first :: _) =>
      match entry_id first with None => true | Some _ => false end
  | Some [] => false
  end.

(** ** The widgets and the handlers *)

(** The text of the city field is kept as the list of its code points:
    [str.strip()] goes by characters.  (The other texts of the page are only
    joined and shown; they are kept as the bytes of the source file.) *)

(** [str.isspace] on one character, by its code point: the whitespace
    [str.strip()] removes.  These are U+0009 to U+000D, U+001C to U+0020,
    U+0085, U+00A0, U+1680, U+2000 to U+200A, U+2028, U+2029, U+202F,
    U+205F and U+3000. *)
Definition isspace (ch : N) : bool :=
  ((9 <=? ch) && (ch <=? 13) || (28 <=? ch) && (ch <=? 32)
   || (ch =? 133) || (ch =? 160) || (ch =? 5760)
   || (8192 <=? ch) && (ch <=? 8202)
   || (ch =? 8232) || (ch =? 8233) || (ch =? 8239) || (ch =? 8287)
   || (ch =? 12288))%N.

Fixpoint lstrip (s : list N) : list N :=
  match s with
  | [] => []
  | ch :: rest => if isspace ch then lstrip rest else s
  end.

Fixpoint rstrip (s : list N) : list N :=
  match s with
  | [] => []
  | ch :: rest =>
      match rstrip rest with
      | [] => if isspace ch then [] else [ch]
      | kept => ch :: kept
      end
  end.

(** [s.strip()]. *)
Definition strip (s : list N) : list N := rstrip (lstrip s).

(** The code points of a literal of ASCII characters. *)
Definition code_points (s : string) : list N :=
  List.map N_of_ascii (list_ascii_of_string s).

(** [ft.ThemeMode] and the two icons of the theme button. *)
Inductive ThemeMode : Type := SYSTEM | LIGHT | DARK.
Inductive Icons : Type := DARK_MODE | LIGHT_MODE.

(** The properties of the page and of the controls that the handlers of
    [WeatherApp] assign and that decide what is on the page, each named
    control_property.  The column of texts put in
    [weather_container.content] is not part of it.  An opacity of [None] is
    one never assigned. *)
Record widgets : Type :=
  { page_theme_mode : ThemeMode;
    page_bgcolor : pyvalue;
    theme_button_icon : Icons;
    city_input_value : list N;
    loading_visible : bool;
    error_message_value : string;
    error_message_visible : bool;
    alert_banner_value : pyvalue;
    alert_banner_bgcolor : option pyvalue;
    alert_banner_visible : bool;
    custom_icon_display_value : pyvalue;
    weather_container_visible : bool;
    weather_container_opacity : option Z }.

Definition set_page_theme_mode (v : ThemeMode) (w : widgets) : widgets :=
  {| page_theme_mode := v;
     page_bgcolor := page_bgcolor w;
     theme_button_icon := theme_button_icon w;
     city_input_value := city_input_value w;
     loading_visible := loading_visible w;
     error_message_value := error_message_value w;
     error_message_visible := error_message_visible w;
     alert_banner_value := alert_banner_value w;
     alert_banner_bgcolor := alert_banner_bgcolor w;
     alert_banner_visible := alert_banner_visible w;
     custom_icon_display_value := custom_icon_display_value w;
     weather_container_visible := weather_container_visible w;
     weather_container_opacity := weather_container_opacity w |}.

Definition set_page_bgcolor (v : pyvalue) (w : widgets) : widgets :=
  {| page_theme_mode := page_theme_mode w;
     page_bgcolor := v;
     theme_button_icon := theme_button_icon w;
     city_input_value := city_input_value w;
     loading_visible := loading_visible w;
     error_message_value := error_message_value w;
     error_message_visible := error_message_visible w;
     alert_banner_value := alert_banner_value w;
     alert_banner_bgcolor := alert_banner_bgcolor w;
     alert_banner_visible := alert_banner_visible w;
     custom_icon_display_value := custom_icon_display_value w;
     weather_container_visible := weather_container_visible w;
     weather_container_opacity := weather_container_opacity w |}.

Definition set_theme_button_icon (v : Icons) (w : widgets) : widgets :=
  {| page_theme_mode := page_theme_mode w;
     page_bgcolor := page_bgcolor w;
     theme_button_icon := v;
     city_input_value := city_input_value w;
     loading_visible := loading_visible w;
     error_message_value := error_message_value w;
     error_message_visible := error_message_visible w;
     alert_banner_value := alert_banner_value w;
     alert_banner_bgcolor := alert_banner_bgcolor w;
     alert_banner_visible := alert_banner_visible w;
     custom_icon_display_value := custom_icon_display_value w;
     weather_container_visible := weather_container_visible w;
     weather_container_opacity := weather_container_opacity w |}.

Definition set_city_input_value (v : list N) (w : widgets) : widgets :=
  {| page_theme_mode := page_theme_mode w;
     page_bgcolor := page_bgcolor w;
     theme_button_icon := theme_button_icon w;
     city_input_value := v;
     loading_visible := loading_visible w;
     error_message_value := error_message_value w;
     error_message_visible := error_message_visible w;
     alert_banner_value := alert_banner_value w;
     alert_banner_bgcolor := alert_banner_bgcolor w;
     alert_banner_visible := alert_banner_visible w;
     custom_icon_display_value := custom_icon_display_value w;
     weather_container_visible := weather_container_visible w;
     weather_container_opacity := weather_container_opacity w |}.

Definition set_loading_visible (v : bool) (w : widgets) : widgets :=
  {| page_theme_mode := page_theme_mode w;
     page_bgcolor := page_bgcolor w;
     theme_button_icon := theme_button_icon w;
     city_input_value := city_input_value w;
     loading_visible := v;
     error_message_value := error_message_value w;
     error_message_visible := error_message_visible w;
     alert_banner_value := alert_banner_value w;
     alert_banner_bgcolor := alert_banner_bgcolor w;
     alert_banner_visible := alert_banner_visible w;
     custom_icon_display_value := custom_icon_display_value w;
     weather_container_visible := weather_container_visible w;
     weather_container_opacity := weather_container_opacity w |}.

Definition set_error_message_value (v : string) (w : widgets) : widgets :=
  {| page_theme_mode := page_theme_mode w;
     page_bgcolor := page_bgcolor w;
     theme_button_icon := theme_button_icon w;
     city_input_value := city_input_value w;
     loading_visible := loading_visible w;
     error_message_value := v;
     error_message_visible := error_message_visible w;
     alert_banner_value := alert_banner_value w;
     alert_banner_bgcolor := alert_banner_bgcolor w;
     alert_banner_visible := alert_banner_visible w;
     custom_icon_display_value := custom_icon_display_value w;
     weather_container_visible := weather_container_visible w;
     weather_container_opacity := weather_container_opacity w |}.

Definition set_error_message_visible (v : bool) (w : widgets) : widgets :=
  {| page_theme_mode := page_theme_mode w;
     page_bgcolor := page_bgcolor w;
     theme_button_icon := theme_button_icon w;
     city_input_value := city_input_value w;
     loading_visible := loading_visible w;
     error_message_value := error_message_value w;
     error_message_visible := v;
     alert_banner_value := alert_banner_value w;
     alert_banner_bgcolor := alert_banner_bgcolor w;
     alert_banner_visible := alert_banner_visible w;
     custom_icon_display_value := custom_icon_display_value w;
     weather_container_visible := weather_container_visible w;
     weather_container_opacity := weather_container_opacity w |}.

Definition set_alert_banner_value (v : pyvalue) (w : widgets) : widgets :=
  {| page_theme_mode := page_theme_mode w;
     page_bgcolor := page_bgcolor w;
     theme_button_icon := theme_button_icon w;
     city_input_value := city_input_value w;
     loading_visible := loading_visible w;
     error_message_value := error_message_value w;
     error_message_visible := error_message_visible w;
     alert_banner_value := v;
     alert_banner_bgcolor := alert_banner_bgcolor w;
     alert_banner_visible := alert_banner_visible w;
     custom_icon_display_value := custom_icon_display_value w;
     weather_container_visible := weather_container_visible w;
     weather_container_opacity := weather_container_opacity w |}.

Definition set_alert_banner_bgcolor (v : option pyvalue) (w : widgets) : widgets :=
  {| page_theme_mode := page_theme_mode w;
     page_bgcolor := page_bgcolor w;
     theme_button_icon := theme_button_icon w;
     city_input_value := city_input_value w;
     loading_visible := loading_visible w;
     error_message_value := error_message_value w;
     error_message_visible := error_message_visible w;
     alert_banner_value := alert_banner_value w;
     alert_banner_bgcolor := v;
     alert_banner_visible := alert_banner_visible w;
     custom_icon_display_value := custom_icon_display_value w;
     weather_container_visible := weather_container_visible w;
     weather_container_opacity := weather_container_opacity w |}.

Definition set_alert_banner_visible (v : bool) (w : widgets) : widgets :=
  {| page_theme_mode := page_theme_mode w;
     page_bgcolor := page_bgcolor w;
     theme_button_icon := theme_button_icon w;
     city_input_value := city_input_value w;
     loading_visible := loading_visible w;
     error_message_value := error_message_value w;
     error_message_visible := error_message_visible w;
     alert_banner_value := alert_banner_value w;
     alert_banner_bgcolor := alert_banner_bgcolor w;
     alert_banner_visible := v;
     custom_icon_display_value := custom_icon_display_value w;
     weather_container_visible := weather_container_visible w;
     weather_container_opacity := weather_container_opacity w |}.

Definition set_custom_icon_display_value (v : pyvalue) (w : widgets) : widgets :=
  {| page_theme_mode := page_theme_mode w;
     page_bgcolor := page_bgcolor w;
     theme_button_icon := theme_button_icon w;
     city_input_value := city_input_value w;
     loading_visible := loading_visible w;
     error_message_value := error_message_value w;
     error_message_visible := error_message_visible w;
     alert_banner_value := alert_banner_value w;
     alert_banner_bgcolor := alert_banner_bgcolor w;
     alert_banner_visible := alert_banner_visible w;
     custom_icon_display_value := v;
     weather_container_visible := weather_container_visible w;
     weather_container_opacity := weather_container_opacity w |}.

Definition set_weather_container_visible (v : bool) (w : widgets) : widgets :=
  {| page_theme_mode := page_theme_mode w;
     page_bgcolor := page_bgcolor w;
     theme_button_icon := theme_button_icon w;
     city_input_value := city_input_value w;
     loading_visible := loading_visible w;
     error_message_value := error_message_value w;
     error_message_visible := error_message_visible w;
     alert_banner_value := alert_banner_value w;
     alert_banner_bgcolor := alert_banner_bgcolor w;
     alert_banner_visible := alert_banner_visible w;
     custom_icon_display_value := custom_icon_display_value w;
     weather_container_visible := v;
     weather_container_opacity := weather_container_opacity w |}.

Definition set_weather_container_opacity (v : option Z) (w : widgets) : widgets :=
  {| page_theme_mode := page_theme_mode w;
     page_bgcolor := page_bgcolor w;
     theme_button_icon := theme_button_icon w;
     city_input_value := city_input_value w;
     loading_visible := loading_visible w;
     error_message_value := error_message_value w;
     error_message_visible := error_message_visible w;
     alert_banner_value := alert_banner_value w;
     alert_banner_bgcolor := alert_banner_bgcolor w;
     alert_banner_visible := alert_banner_visible w;
     custom_icon_display_value := custom_icon_display_value w;
     weather_container_visible := weather_container_visible w;
     weather_container_opacity := v |}.

(** The page as [WeatherApp.__init__] leaves it ([setup_page], then
    [build_ui]). *)
Definition initial_widgets : widgets :=
  {| page_theme_mode := SYSTEM;
     page_bgcolor := VColor WHITE;
     theme_button_icon := DARK_MODE;
     city_input_value := [];
     loading_visible := false;
     error_message_value := "";
     error_message_visible := false;
     alert_banner_value := VStr "";
     alert_banner_bgcolor := None;
     alert_banner_visible := false;
     custom_icon_display_value := VStr "🔎";
     weather_container_visible := false;
     weather_container_opacity := None |}.

(** What a handler can raise: one of the exceptions above, or the error of
    formatting a number ([f"{temp:.1f}"] raises [OverflowError] on an int
    beyond the range of a float). *)
Inductive raised : Type :=
| Builtin (e : exn)
| FormatError.

Inductive ended (A : Type) : Type :=
| Done (a : A)
| Raised (e : raised).

Arguments Done {A} a.
Arguments Raised {A} e.

(** A handler: from the widgets before it to how it ends, the widgets after
    it (also when it raises) and the frames it has sent with
    [page.update()], oldest first. *)
Definition handler (A : Type) : Type :=
  widgets -> ended A * widgets * list widgets.

Definition pure {A : Type} (r : result A) : handler A :=
  fun w =>
    (match r with Ok a => Done a | Raise e => Raised (Builtin e) end, w, []).

Definition raise {A : Type} (e : raised) : handler A :=
  fun w => (Raised e, w, []).

Definition assign (f : widgets -> widgets) : handler unit :=
  fun w => (Done tt, f w, []).

(** [self.page.update()]. *)
Definition page_update : handler unit :=
  fun w => (Done tt, w, [w]).

Definition and_then {A B : Type} (m : handler A) (k : A -> handler B)
    : handler B :=
  fun w =>
    match m w with
    | (Done a, w1, sent1) =>
        match k a w1 with
        | (r, w2, sent2) => (r, w2, (sent1 ++ sent2)%list)
        end
    | (Raised e, w1, sent1) => (Raised e, w1, sent1)
    end.

(** [try: body  except Exception: on_raise]. *)
Definition try_except {A : Type} (body : handler A) (on_raise : raised -> handler A)
    : handler A :=
  fun w =>
    match body w with
    | (Raised e, w1, sent1) =>
        match on_raise e w1 with
        | (r, w2, sent2) => (r, w2, (sent1 ++ sent2)%list)
        end
    | done => done
    end.

(** [try: body  finally: cleanup]: the cleanup runs in either case; what it
    raises replaces the outcome of the body. *)
Definition try_finally {A : Type} (body : handler A) (cleanup : handler unit)
    : handler A :=
  fun w =>
    match body w with
    | (r, w1, sent1) =>
        match cleanup w1 with
        | (Done _, w2, sent2) => (r, w2, (sent1 ++ sent2)%list)
        | (Raised e, w2, sent2) => (Raised e, w2, (sent1 ++ sent2)%list)
        end
    end.

Notation "x <- m ;; k" := (and_then m (fun x => k))
  (at level 100, m at next level, right associativity, only parsing).
Notation "m ;;; k" := (and_then m (fun _ => k))
  (at level 100, right associativity, only parsing).

(** [toggle_theme]. *)
Definition toggle_theme : handler unit :=
  fun w =>
    (match page_theme_mode w with
     | LIGHT =>
         assign (set_page_theme_mode DARK) ;;;
         assign (set_theme_button_icon LIGHT_MODE)
     | _ =>
         assign (set_page_theme_mode LIGHT) ;;;
         assign (set_theme_button_icon DARK_MODE)
     end ;;;
     page_update) w.

(** [show_error]. *)
Definition show_error (message : string) : handler unit :=
  assign (set_error_message_value ("❌ " ++ message)) ;;;
  assign (set_error_message_visible true) ;;;
  assign (set_weather_container_visible false) ;;;
  assign (set_alert_banner_visible false) ;;;
  assign (set_page_bgcolor (VColor WHITE)) ;;;
  page_update.

(** [if alert:] on what [check_alerts] returned: [None] and the empty dict
    are false. *)
Definition truthy (alert : option pydict) : bool :=
  match alert with
  | None => false
  | Some d => negb (Nat.eqb (size d) 0)
  end.

(** What the service returns: the payload, and whether the numbers of its
    other keys format in the texts of the weather card. *)
Record response : Type :=
  { data_of : payload;
    texts_format : bool }.

(** The column of texts put in [weather_container.content]: only whether
    building it raises is kept. *)
Definition build_column (resp : response) : handler unit :=
  if texts_format resp then pure (Ok tt) else raise FormatError.

(** [display_weather] with its assignments, in the order of the source. *)
Definition display_weather_handler (resp : response) : handler unit :=
  inputs <- pure (core_inputs (data_of resp)) ;;
  let temp := fst inputs in
  let weather_id := snd inputs in
  mapping <- pure (classify weather_id) ;;
  new_bgcolor <- pure (subscript mapping "color") ;;
  custom_icon <- pure (subscript mapping "icon") ;;
  alert <- pure (check_alerts temp weather_id) ;;
  match alert with
  | Some found =>
      if truthy alert then
        recommendation <- pure (subscript found "recommendation") ;;
        assign (set_alert_banner_value recommendation) ;;;
        color <- pure (subscript found "color") ;;
        assign (set_alert_banner_bgcolor (Some color)) ;;;
        assign (set_alert_banner_visible true)
      else assign (set_alert_banner_visible false)
  | None => assign (set_alert_banner_visible false)
  end ;;;
  assign (set_custom_icon_display_value custom_icon) ;;;
  assign (set_page_bgcolor new_bgcolor) ;;;
  build_column resp ;;;
  assign (set_weather_container_opacity (Some 0)) ;;;
  assign (set_weather_container_visible true) ;;;
  page_update ;;;
  assign (set_weather_container_opacity (Some 1)) ;;;
  assign (set_error_message_visible false) ;;;
  page_update.

(** What [await self.weather_service.get_weather(city)] comes to: the
    response, a [WeatherServiceError] (or a subclass) with the text [str(e)]
    gives, or some other [Exception]. *)
Inductive service_outcome : Type :=
| Returns (resp : response)
| RaisesServiceError (message : string)
| RaisesOther.

Definition unexpected : string :=
  "An unexpected error occurred. Please try again.".

(** What the [try] block of [get_weather] does with what the [await] comes
    to. *)
Definition try_block (answer : service_outcome) : handler unit :=
  match answer with
  | Returns weather_data =>
      try_except (display_weather_handler weather_data)
        (fun _ => show_error unexpected)
  | RaisesServiceError message => show_error message
  | RaisesOther => show_error unexpected
  end.

(** [get_weather], run to its end with the service answering as [service]
    does for the city asked: one search on its own, nothing else running
    while it waits. *)
Definition get_weather (service : list N -> service_outcome) : handler unit :=
  fun w =>
    let city := strip (city_input_value w) in
    match city with
    | [] => show_error "Please enter a city name." w
    | _ =>
        (assign (set_loading_visible true) ;;;
         assign (set_error_message_visible false) ;;;
         assign (set_weather_container_visible false) ;;;
         assign (set_alert_banner_visible false) ;;;
         page_update ;;;
         try_finally
           (try_block (service city))
           (assign (set_loading_visible false) ;;; page_update)) w
    end.

(** The widgets after a handler, the frames it sends and how it ends. *)
Definition after {A : Type} (m : handler A) (w : widgets) : widgets :=
  snd (fst (m w)).

Definition sent {A : Type} (m : handler A) (w : widgets) : list widgets :=
  snd (m w).

Definition outcome {A : Type} (m : handler A) (w : widgets) : ended A :=
  fst (fst (m w)).

(** ** Searches that wait *)

(** [get_weather] is a coroutine: it gives way at its [await], and other
    handlers, the start and the end of other searches among them, run before
    it goes on.  Its two segments follow. *)

(** [get_weather] up to its [await]: a blank field ends it at once
    ([None]); otherwise it waits for the answer of the service for the city
    ([Some city]). *)
Definition get_weather_until_await : handler (option (list N)) :=
  fun w =>
    let city := strip (city_input_value w) in
    match city with
    | [] => (show_error "Please enter a city name." ;;; pure (Ok None)) w
    | _ =>
        (assign (set_loading_visible true) ;;;
         assign (set_error_message_visible false) ;;;
         assign (set_weather_container_visible false) ;;;
         assign (set_alert_banner_visible false) ;;;
         page_update ;;;
         pure (Ok (Some city))) w
    end.

(** [get_weather] from its [await] on, with what the [await] comes to. *)
Definition get_weather_from_await (answer : service_outcome) : handler unit :=
  try_finally
    (try_block answer)
    (assign (set_loading_visible false) ;;; page_update).

(** The session between two segments: the widgets, and the cities of
    the searches that wait for their answer, oldest first. *)
Record session : Type :=
  { page : widgets;
    waiting : list (list N) }.

Definition initial_session : session :=
  {| page := initial_widgets; waiting := [] |}.

(** [on_search]: [self.page.run_task(self.get_weather)] starts a search
    and returns; the search runs to its [await] and then waits.  The
    session after it is the one at the time the search has reached its
    [await]. *)
Definition on_search (a : session) : session :=
  match get_weather_until_await (page a) with
  | (Done (Some city), w, _) =>
      {| page := w; waiting := (waiting a ++ [city])%list |}
  | (_, w, _) => {| page := w; waiting := waiting a |}
  end.

(** What happens between two segments: a click on the theme button, an edit
    of the city field by the user, a search started (a click on the button
    or the enter key), and the answer of the service, of any kind, to the
    search at place [i] among those that wait, which goes on from its
    [await].  Each segment is taken to run without another inside it, as
    coroutines on one event loop do; [toggle_theme], were it run on a
    thread of its own, assigns only the theme mode and the icon of its
    button, which no segment reads or assigns. *)
Inductive event : Type :=
| ClickTheme
| EditCity (text : list N)
| StartSearch
| Answer (i : nat) (answer : service_outcome).

Definition step (ev : event) (a : session) : session :=
  match ev with
  | ClickTheme =>
      {| page := after toggle_theme (page a); waiting := waiting a |}
  | EditCity text =>
      {| page := set_city_input_value text (page a); waiting := waiting a |}
  | StartSearch => on_search a
  | Answer i answer =>
      match waiting a !! i with
      | Some _ =>
          {| page := after (get_weather_from_await answer) (page a);
             waiting := delete i (waiting a) |}
      | None => a
      end
  end.

Fixpoint run (evs : list event) (a : session) : session :=
  match evs with
  | [] => a
  | ev :: rest => run rest (step ev a)
  end.

(** ** Words for the statements about the page *)

(** A text of whitespace only. *)
Fixpoint all_space (s : list N) : bool :=
  match s with
  | [] => true
  | ch :: rest => isspace ch && all_space rest
  end.

(** A frame is coherent when the error message and the weather card are not
    both on it, and the alert banner is on it only with the card. *)
Definition coherent (w : widgets) : Prop :=
  (error_message_visible w = true -> weather_container_visible w = false)
  /\ (alert_banner_visible w = true -> weather_container_visible w = true).

(** The card, when shown, is themed by one row of [WEATHER_MAPPING]. *)
Definition themed_by_a_row (w : widgets) : Prop :=
  exists (k : string) (row : pydict),
    WEATHER_MAPPING !! k = Some row
    /\ color_of row = Some (page_bgcolor w)
    /\ icon_of row = Some (custom_icon_display_value w).

(** The banner, when shown, carries the text and the colour of one alert of
    [ALERT_THRESHOLDS]. *)
Definition banner_of_an_alert (w : widgets) : Prop :=
  exists r : rule_name,
    alert_of r !! "recommendation" = Some (alert_banner_value w)
    /\ alert_of r !! "color" = alert_banner_bgcolor w.

(** The page between two segments. *)
Definition settled (w : widgets) : Prop :=
  coherent w
  /\ (error_message_visible w = true -> page_bgcolor w = VColor WHITE)
  /\ (weather_container_visible w = true ->
      weather_container_opacity w = Some 1 /\ themed_by_a_row w)
  /\ (alert_banner_visible w = true -> banner_of_an_alert w).

(** A city as the service may be asked for: not empty, and with no
    whitespace at either end. *)
Definition trimmed (s : list N) : bool :=
  match s with
  | [] => false
  | ch :: rest => negb (isspace ch) && negb (isspace (List.last rest ch))
  end.

(** What holds of the session between two segments. *)
Definition in_order (a : session) : Prop :=
  settled (page a)
  /\ (waiting a = [] -> loading_visible (page a) = false)
  /\ Forall (fun city => trimmed city = true) (waiting a).

(** The banner assignments of [display_weather] for the alert found. *)
Definition banner_for (found : option pydict) (w : widgets) : widgets :=
  match found with
  | Some d =>
      match d !! "recommendation", d !! "color" with
      | Some text, Some color =>
          set_alert_banner_visible true
            (set_alert_banner_bgcolor (Some color)
               (set_alert_banner_value text w))
      | _, _ => w
      end
  | None => set_alert_banner_visible false w
  end.

(** The widgets after [show_error], and after the first assignments of
    [get_weather]. *)
Definition error_view (message : string) (w : widgets) : widgets :=
  set_page_bgcolor (VColor WHITE)
    (set_alert_banner_visible false
       (set_weather_container_visible false
          (set_error_message_visible true
             (set_error_message_value ("❌ " ++ message) w)))).

Definition searching (w : widgets) : widgets :=
  set_alert_banner_visible false
    (set_weather_container_visible false
       (set_error_message_visible false
          (set_loading_visible true w))).

(** The widgets of the two frames of [display_weather]: the card at opacity
    0, then at opacity 1. *)
Definition card_fading_in (w : widgets) : widgets :=
  set_weather_container_visible true
    (set_weather_container_opacity (Some 0) w).

Definition card_shown (w : widgets) : widgets :=
  set_error_message_visible false
    (set_weather_container_opacity (Some 1) (card_fading_in w)).

(** The [try] block of [get_weather] for the city asked. *)
Definition attempt (service : list N -> service_outcome) (city : list N)
    : handler unit :=
  try_block (service city).

(** The decimal digit [d] as a one-character key. *)
Definition digit_key (d : Z) : string :=
  String (ascii_of_N (48 + Z.to_N d)) EmptyString.

(** What is checked of the text of each three-digit id: its first character
    is its hundreds digit, it is "800" only for 800, and the prefix tests of
    [check_alerts] read the hundreds digit. *)
Definition id_text_ok (n : Z) : bool :=
  String.eqb (category_key (str_int n)) (digit_key (n / 100))
  && Bool.eqb (String.eqb (str_int n) "800") (n =? 800)
  && Bool.eqb (startswith (str_int n) "5") (n / 100 =? 5)
  && Bool.eqb (startswith (str_int n) "2") (n / 100 =? 2)
  && Bool.eqb (startswith (str_int n) "6") (n / 100 =? 6).

(** The row the provider's numbering stands for: the hundreds of the id,
    with 800 apart. *)
Definition row_of_id (n : Z) : pydict :=
  if n =? 800 then clear_sky_entry else
  match n / 100 with
  | 2 => storm_entry
  | 3 => drizzle_entry
  | 5 => rain_entry
  | 6 => snow_entry
  | 7 => mist_entry
  | 8 => clouds_entry
  | _ => default_entry
  end.

(** * Proofs *)

(** ** Order on values *)

Module ValueOrder.

Lemma Qlt_bool_iff (p q : Q) : negb (Qle_bool q p) = true <-> (p < q)%Q.
Proof.
  rewrite negb_true_iff. split.
  - intros H. apply Qnot_le_lt. intros Hle.
    apply Qle_bool_iff in Hle. congruence.
  - intros H. destruct (Qle_bool q p) eqn:E; [|reflexivity].
    apply Qle_bool_iff in E. lra.
Qed.

Lemma xlt_not_ge (a b : xvalue) : xlt a b = true -> xle b a = false.
Proof.
  destruct a as [| |p|], b as [| |q|]; simpl; try congruence.
  intros H. apply negb_true_iff in H. exact H.
Qed.

Lemma xle_lt_trans (a b c : xvalue) :
  xle a b = true -> xlt b c = true -> xlt a c = true.
Proof.
  destruct a as [| |p|], b as [| |q|], c as [| |r|]; simpl; try congruence.
  rewrite Qle_bool_iff, !Qlt_bool_iff. lra.
Qed.

Lemma xlt_le_trans (a b c : xvalue) :
  xlt a b = true -> xle b c = true -> xlt a c = true.
Proof.
  destruct a as [| |p|], b as [| |q|], c as [| |r|]; simpl; try congruence.
  rewrite Qle_bool_iff, !Qlt_bool_iff. lra.
Qed.

Lemma xlt_trans (a b c : xvalue) :
  xlt a b = true -> xlt b c = true -> xlt a c = true.
Proof.
  destruct a as [| |p|], b as [| |q|], c as [| |r|]; simpl; try congruence.
  rewrite !Qlt_bool_iff. lra.
Qed.

End ValueOrder.

(** ** The three thresholds against one another *)

Section Thresholds.

Import ValueOrder.

Variable t : pynum.

Lemma five_lt_28 : py_lt f5 f28 = true.
Proof. reflexivity. Qed.

Lemma five_lt_35 : py_lt f5 f35 = true.
Proof. reflexivity. Qed.

Lemma f28_lt_35 : py_lt f28 f35 = true.
Proof. reflexivity. Qed.

Lemma lt_not_ge (b : pynum) : py_lt t b = true -> py_ge t b = false.
Proof. apply xlt_not_ge. Qed.

Lemma gt_not_le (b : pynum) : py_lt b t = true -> py_le t b = false.
Proof. apply xlt_not_ge. Qed.

Lemma cold_not_hot : py_le t f5 = true -> py_ge t f35 = false.
Proof.
  intros H. apply lt_not_ge.
  exact (xle_lt_trans _ _ _ H five_lt_35).
Qed.

Lemma warm_not_cold : py_ge t f28 = true -> py_le t f5 = false.
Proof.
  intros H. apply gt_not_le.
  exact (xlt_le_trans _ _ _ five_lt_28 H).
Qed.

Lemma below_28_not_hot : py_lt t f28 = true -> py_ge t f35 = false.
Proof.
  intros H. apply lt_not_ge.
  exact (xlt_trans _ _ _ H f28_lt_35).
Qed.

End Thresholds.

(** ** Reading the threshold table *)

Lemma subscript_lookup {V : Type} (d : gmap string V) (k : string) (v : V) :
  d !! k = Some v -> subscript d k = Ok v.
Proof. unfold subscript. intros ->. reflexivity. Qed.

Lemma threshold_entry (r : rule_name) :
  subscript ALERT_THRESHOLDS
    match r with HEAT => "HEAT" | COLD => "COLD" | RAIN => "RAIN" | SUN => "SUN" end
  = Ok (alert_of r).
Proof. destruct r; apply subscript_lookup; reflexivity. Qed.

Lemma heat_temp : subscript HEAT_alert "temp" = Ok (VNum f35).
Proof. apply subscript_lookup. reflexivity. Qed.

Lemma cold_temp : subscript COLD_alert "temp" = Ok (VNum f5).
Proof. apply subscript_lookup. reflexivity. Qed.

Lemma rain_prefix : subscript RAIN_alert "group_id_prefix" = Ok (VStr "5").
Proof. apply subscript_lookup. reflexivity. Qed.

Lemma sun_uv_temp : subscript SUN_alert "uv_temp" = Ok (VNum f28).
Proof. apply subscript_lookup. reflexivity. Qed.

Lemma startswith_any_625 (c : string) :
  startswith_any c ["6"; "2"; "5"]
  = startswith c "6" || startswith c "2" || startswith c "5".
Proof. unfold startswith_any. simpl. rewrite orb_false_r, orb_assoc. reflexivity. Qed.

(** The four alert records differ pairwise: their colours do. *)
Lemma alert_of_inj (r1 r2 : rule_name) : alert_of r1 = alert_of r2 -> r1 = r2.
Proof.
  intros H. apply (f_equal (fun d : pydict => d !! "color")) in H.
  destruct r1, r2; try reflexivity; vm_compute in H; discriminate H.
Qed.

(** [check_alerts] never raises, and is the first match over the ordered
    rule list. *)
Lemma check_alerts_first_match (t : pynum) (c : string) :
  check_alerts t c = Ok (evaluate_spec t c).
Proof.
  unfold check_alerts, check_alerts_in.
  rewrite (threshold_entry HEAT), (threshold_entry COLD),
    (threshold_entry RAIN), (threshold_entry SUN).
  cbn [mbind result_bind alert_of mret result_ret].
  rewrite heat_temp, cold_temp, rain_prefix, sun_uv_temp.
  cbn [mbind result_bind ge_value le_value startswith_value mret result_ret].
  rewrite startswith_any_625.
  unfold evaluate_spec, rule_order. cbn [List.find rule_matches].
  destruct (py_ge t f35); [reflexivity|].
  destruct (py_le t f5); [reflexivity|].
  destruct (startswith c "5" || startswith c "2"); [reflexivity|].
  destruct (py_ge t f28 && _); reflexivity.
Qed.

(** ** Reading the category table *)

Lemma WEATHER_MAPPING_rows (k : string) (e : pydict) :
  WEATHER_MAPPING !! k = Some e -> In (k, e) category_rows.
Proof.
  unfold WEATHER_MAPPING, category_rows.
  rewrite !lookup_insert_Some, lookup_singleton_Some.
  intros H.
  repeat (destruct H as [[<- <-]|[_ H]]; [simpl; tauto|]).
  destruct H as [<- <-]. simpl. tauto.
Qed.

(** Splits a lookup in [WEATHER_MAPPING] into its eight rows. *)
Ltac table_rows H :=
  apply WEATHER_MAPPING_rows in H; unfold category_rows in H; simpl in H;
  repeat (destruct H as [H | H]); try contradiction;
  injection H as <- <-.

(** Every row has a colour and an icon. *)
Lemma WEATHER_MAPPING_row_fields (k : string) (e : pydict) :
  WEATHER_MAPPING !! k = Some e ->
  exists (col : Colors) (ico : string),
    color_of e = Some (VColor col) /\ icon_of e = Some (VStr ico).
Proof.
  intros H. table_rows H; do 2 eexists; split; reflexivity.
Qed.

(** Only the key ["800"] holds the colour of clear sky, and only it holds
    the icon. *)
Lemma clear_sky_color_key (k : string) (e : pydict) :
  WEATHER_MAPPING !! k = Some e ->
  color_of e = color_of clear_sky_entry -> k = "800".
Proof.
  intros H Hc. table_rows H; try reflexivity;
    vm_compute in Hc; discriminate Hc.
Qed.

Lemma clear_sky_icon_key (k : string) (e : pydict) :
  WEATHER_MAPPING !! k = Some e ->
  icon_of e = icon_of clear_sky_entry -> k = "800".
Proof.
  intros H Hc. table_rows H; try reflexivity;
    vm_compute in Hc; discriminate Hc.
Qed.

Lemma category_key_not_800 (c : string) : category_key c <> "800".
Proof. destruct c; simpl; congruence. Qed.

Lemma classify_800 : classify "800" = Ok clear_sky_entry.
Proof. reflexivity. Qed.

Lemma classify_other (c : string) :
  c <> "800" ->
  classify c = Ok (dict_get WEATHER_MAPPING (category_key c) default_entry).
Proof.
  intros Hc. unfold classify, classify_in.
  destruct (decide (c = "800")) as [E|_]; [contradiction|].
  rewrite (subscript_lookup WEATHER_MAPPING "default" default_entry) by reflexivity.
  reflexivity.
Qed.

(** ** Prefix tests on a single character *)

Lemma startswith_char (a b : ascii) (rest : string) :
  startswith (String a rest) (String b EmptyString) = true <-> a = b.
Proof.
  unfold startswith. cbn [String.prefix].
  destruct (ascii_dec b a) as [E|E].
  - split; [congruence|]. intros _. destruct rest; reflexivity.
  - split; [discriminate|congruence].
Qed.

(** A code that starts with one character starts with no other. *)
Lemma startswith_other (c : string) (a b : ascii) :
  a <> b ->
  startswith c (String a EmptyString) = true ->
  startswith c (String b EmptyString) = false.
Proof.
  intros Hab Ha. destruct c as [|x rest]; [reflexivity|].
  apply startswith_char in Ha. subst x.
  destruct (startswith (String a rest) (String b EmptyString)) eqn:E;
    [|reflexivity].
  apply startswith_char in E. contradiction.
Qed.

(** ** The alert evaluator, rule by rule *)

Lemma check_alerts_heat (t : pynum) (c : string) :
  py_ge t f35 = true -> check_alerts t c = Ok (Some HEAT_alert).
Proof.
  intros H. rewrite check_alerts_first_match.
  unfold evaluate_spec, rule_order. cbn [List.find rule_matches].
  rewrite H. reflexivity.
Qed.

Lemma check_alerts_cold (t : pynum) (c : string) :
  py_le t f5 = true -> check_alerts t c = Ok (Some COLD_alert).
Proof.
  intros H. rewrite check_alerts_first_match.
  unfold evaluate_spec, rule_order. cbn [List.find rule_matches].
  rewrite (cold_not_hot t H), H. reflexivity.
Qed.

Lemma check_alerts_rain (t : pynum) (c : string) :
  py_ge t f35 = false -> py_le t f5 = false ->
  startswith c "5" || startswith c "2" = true ->
  check_alerts t c = Ok (Some RAIN_alert).
Proof.
  intros Hh Hc Hr. rewrite check_alerts_first_match.
  unfold evaluate_spec, rule_order. cbn [List.find rule_matches].
  rewrite Hh, Hc, Hr. reflexivity.
Qed.

Lemma check_alerts_late (t : pynum) (c : string) :
  py_ge t f35 = false -> py_le t f5 = false ->
  startswith c "5" || startswith c "2" = false ->
  check_alerts t c
  = Ok (if rule_matches SUN t c then Some SUN_alert else None).
Proof.
  intros Hh Hc Hr. rewrite check_alerts_first_match.
  unfold evaluate_spec, rule_order. cbn [List.find].
  change (rule_matches HEAT t c) with (py_ge t f35).
  change (rule_matches COLD t c) with (py_le t f5).
  change (rule_matches RAIN t c) with (startswith c "5" || startswith c "2").
  rewrite Hh, Hc, Hr.
  destruct (rule_matches SUN t c); reflexivity.
Qed.

Lemma alert_neq (r1 r2 : rule_name) :
  r1 <> r2 -> Ok (Some (alert_of r1)) <> Ok (Some (alert_of r2)).
Proof.
  intros Hr H. injection H as H. apply alert_of_inj in H. contradiction.
Qed.

(** Between the cold and the heat threshold the prefixes decide. *)
Lemma check_alerts_mild (t : pynum) (c : string) :
  py_ge t f35 = false -> py_le t f5 = false ->
  check_alerts t c
  = Ok (if startswith c "5" || startswith c "2" then Some RAIN_alert
        else if rule_matches SUN t c then Some SUN_alert else None).
Proof.
  intros Hh Hc.
  destruct (startswith c "5" || startswith c "2") eqn:Hr.
  - apply check_alerts_rain; assumption.
  - apply check_alerts_late; assumption.
Qed.

Lemma subscript_color (e : pydict) (v : pyvalue) :
  color_of e = Some v -> subscript e "color" = Ok v.
Proof. apply subscript_lookup. Qed.

Lemma subscript_icon (e : pydict) (v : pyvalue) :
  icon_of e = Some v -> subscript e "icon" = Ok v.
Proof. apply subscript_lookup. Qed.

Lemma clear_sky_not_clouds : clear_sky_entry <> clouds_entry.
Proof.
  intros H. apply (f_equal icon_of) in H. vm_compute in H. discriminate H.
Qed.

(** ** What [display_weather] passes to the two decisions *)

Lemma core_inputs_Ok (data : payload) (c : string) :
  read_weather_id data = Ok c -> core_inputs data = Ok (read_temp data, c).
Proof. unfold core_inputs. intros ->. reflexivity. Qed.

Lemma read_temp_absent (data : payload) :
  temp_absent data = true -> read_temp data = PyInt 0.
Proof.
  unfold temp_absent, read_temp. destruct (main data) as [m|]; cbn.
  - destruct (temp m); [discriminate|reflexivity].
  - reflexivity.
Qed.

Lemma read_weather_id_absent (data : payload) :
  id_absent data = true -> read_weather_id data = Ok "0".
Proof.
  unfold id_absent, read_weather_id.
  destruct (weather data) as [[|first rest]|]; cbn.
  - discriminate.
  - destruct (entry_id first); [discriminate|reflexivity].
  - reflexivity.
Qed.

(** The code ["0"] starts with none of the prefixes the rules test, and its
    first character is no key of the category table: the two decisions treat
    it as they treat the empty code. *)
Lemma zero_code_as_empty :
  classify "0" = classify ""
  /\ forall t : pynum, check_alerts t "0" = check_alerts t "".
Proof.
  split; [reflexivity|].
  intros t. rewrite !check_alerts_first_match. reflexivity.
Qed.

(** [classify] returns a row of the table, whatever the code. *)
Lemma classify_row (c : string) :
  exists (e : pydict) (k : string),
    classify c = Ok e /\ WEATHER_MAPPING !! k = Some e.
Proof.
  destruct (decide (c = "800")) as [->|Hne].
  - exists clear_sky_entry, "800". split; reflexivity.
  - rewrite (classify_other c Hne). unfold dict_get.
    destruct (WEATHER_MAPPING !! category_key c) as [e|] eqn:E.
    + exists e, (category_key c). split; [reflexivity|exact E].
    + exists default_entry, "default". split; reflexivity.
Qed.

(** [display_weather] raises only on an empty weather list; otherwise it
    shows the colour and icon of the row chosen for the code it computed and
    the alert [check_alerts] gives for the temperature and that code. *)
Lemma display_weather_Ok (data : payload) (t : pynum) (c : string) :
  core_inputs data = Ok (t, c) ->
  exists (v : view) (e : pydict),
    display_weather data = Ok v
    /\ classify c = Ok e
    /\ color_of e = Some (new_bgcolor v)
    /\ icon_of e = Some (custom_icon v)
    /\ check_alerts t c = Ok (alert v).
Proof.
  intros Hin. unfold display_weather. rewrite Hin.
  cbn [mbind result_bind fst snd].
  destruct (classify_row c) as (e & k & He & Hk).
  destruct (WEATHER_MAPPING_row_fields k e Hk) as (col & ico & Hc & Hi).
  rewrite He. cbn [mbind result_bind].
  rewrite (subscript_color e _ Hc), (subscript_icon e _ Hi).
  cbn [mbind result_bind].
  rewrite check_alerts_first_match. cbn [mbind result_bind mret result_ret].
  eexists _, e. split; [reflexivity|]. cbn.
  repeat split; assumption.
Qed.

Lemma display_weather_empty_list (data : payload) :
  weather data = Some [] -> display_weather data = Raise IndexError.
Proof.
  intros H. unfold display_weather, core_inputs, read_weather_id.
  rewrite H. reflexivity.
Qed.

(** * The claims *)

(** C3: the rules are tried in the order HEAT, COLD, RAIN, SUN and the first
    that matches gives the result, so a call returns no alert or exactly one;
    a temperature of at most 5.0 gives the COLD alert whatever the code is,
    rain and thunderstorm codes included, and never the RAIN alert;
    [check_alerts(5.0, "500")] is the COLD alert. *)
Theorem C3_fixed_order_cold_before_rain :
  (forall (t : pynum) (c : string),
     check_alerts t c
     = Ok (alert_of <$>
             List.find (fun r => rule_matches r t c) [HEAT; COLD; RAIN; SUN]))
  /\ (forall (t : pynum) (c : string),
        check_alerts t c = Ok None
        \/ exists r : rule_name,
             check_alerts t c = Ok (Some (alert_of r))
             /\ forall r' : rule_name,
                  check_alerts t c = Ok (Some (alert_of r')) -> r' = r)
  /\ (forall (t : pynum) (c : string),
        py_le t f5 = true ->
        check_alerts t c = Ok (Some COLD_alert)
        /\ check_alerts t c <> Ok (Some RAIN_alert))
  /\ check_alerts f5 "500" = Ok (Some COLD_alert).
Proof.
  split; [exact check_alerts_first_match|].
  split.
  - intros t c. rewrite check_alerts_first_match. unfold evaluate_spec.
    destruct (List.find _ rule_order) as [r|]; [right|left; reflexivity].
    exists r. split; [reflexivity|].
    intros r' H. injection H as H. symmetry. exact (alert_of_inj _ _ H).
  - split.
    + intros t c H. rewrite (check_alerts_cold t c H).
      split; [reflexivity|]. apply (alert_neq COLD RAIN). discriminate.
    + apply check_alerts_cold. reflexivity.
Qed.

Lemma C3_witness :
  py_le (PyFloat (float_lit 3)) f5 = true
  /\ check_alerts (PyFloat (float_lit 3)) "211" = Ok (Some COLD_alert).
Proof.
  split; [reflexivity|].
  exact (proj1 (proj1 (proj2 (proj2 C3_fixed_order_cold_before_rain))
                  (PyFloat (float_lit 3)) "211" eq_refl)).
Defined.

(** C4: a temperature of 35.0 or more gives the HEAT alert for every code;
    the bound is inclusive. *)
Theorem C4_heat_threshold_inclusive (t : pynum) (c : string) :
  py_ge t f35 = true -> check_alerts t c = Ok (Some HEAT_alert).
Proof. apply check_alerts_heat. Qed.

Lemma C4_witness :
  py_ge f35 f35 = true /\ check_alerts f35 "800" = Ok (Some HEAT_alert).
Proof.
  split; [reflexivity|].
  exact (C4_heat_threshold_inclusive f35 "800" eq_refl).
Defined.

(** C5: for a temperature strictly between 5.0 and 35.0, a code that begins
    with "5" or with "2" gives the RAIN alert. *)
Theorem C5_rain_or_storm_prefix (t : pynum) (c : string) :
  py_lt f5 t = true -> py_lt t f35 = true ->
  startswith c "5" = true \/ startswith c "2" = true ->
  check_alerts t c = Ok (Some RAIN_alert).
Proof.
  intros Hlo Hhi Hp.
  apply check_alerts_rain.
  - apply lt_not_ge, Hhi.
  - apply gt_not_le, Hlo.
  - apply orb_true_iff, Hp.
Qed.

Lemma C5_witness :
  py_lt f5 (PyFloat (float_lit 10)) = true
  /\ py_lt (PyFloat (float_lit 10)) f35 = true
  /\ startswith "211" "2" = true
  /\ check_alerts (PyFloat (float_lit 10)) "211" = Ok (Some RAIN_alert).
Proof.
  split; [reflexivity|]. split; [reflexivity|]. split; [reflexivity|].
  exact (C5_rain_or_storm_prefix (PyFloat (float_lit 10)) "211"
           eq_refl eq_refl (or_intror eq_refl)).
Defined.

(** C6: for a temperature from 28.0 up to, not including, 35.0 the SUN alert
    is returned exactly for the codes that begin with none of "6", "2" and
    "5"; codes that begin with "7", "8" or "3" and the empty code are among
    them. *)
Theorem C6_sun_excludes_three_prefixes (t : pynum) (c : string) :
  py_ge t f28 = true -> py_lt t f35 = true ->
  (check_alerts t c = Ok (Some SUN_alert)
   <-> startswith c "6" = false /\ startswith c "2" = false
       /\ startswith c "5" = false)
  /\ (c = "" \/ startswith c "7" = true \/ startswith c "8" = true
      \/ startswith c "3" = true ->
      check_alerts t c = Ok (Some SUN_alert)).
Proof.
  intros Hw Hhi.
  assert (Hiff : check_alerts t c = Ok (Some SUN_alert)
                 <-> startswith c "6" = false /\ startswith c "2" = false
                     /\ startswith c "5" = false).
  { rewrite (check_alerts_mild t c (lt_not_ge t f35 Hhi) (warm_not_cold t Hw)).
    cbn [rule_matches]. rewrite Hw.
    pose proof (alert_neq RAIN SUN) as Hrs. cbn [alert_of] in Hrs.
    destruct (startswith c "6"), (startswith c "2"), (startswith c "5");
      cbn; split; intros H;
      try reflexivity; try discriminate H;
      try (exfalso; apply Hrs; [discriminate|exact H]);
      try (destruct H as (H6 & H2 & H5); discriminate);
      try (repeat split; reflexivity). }
  split; [exact Hiff|].
  intros Hc. apply Hiff.
  destruct Hc as [->|[H|[H|H]]]; [repeat split; reflexivity| | |];
    repeat split;
    (eapply startswith_other; [|exact H]; discriminate).
Qed.

Lemma C6_witness :
  py_ge (PyFloat (float_lit 30)) f28 = true
  /\ py_lt (PyFloat (float_lit 30)) f35 = true
  /\ check_alerts (PyFloat (float_lit 30)) "800" = Ok (Some SUN_alert)
  /\ check_alerts (PyFloat (float_lit 30)) "" = Ok (Some SUN_alert).
Proof.
  split; [reflexivity|]. split; [reflexivity|].
  split.
  - exact (proj2 (C6_sun_excludes_three_prefixes (PyFloat (float_lit 30)) "800"
                    eq_refl eq_refl)
             (or_intror (or_intror (or_introl eq_refl)))).
  - exact (proj2 (C6_sun_excludes_three_prefixes (PyFloat (float_lit 30)) ""
                    eq_refl eq_refl)
             (or_introl eq_refl)).
Defined.

(** C7: [check_alerts] returns [None] exactly when no rule matches; it does
    so for every temperature strictly between 5.0 and 28.0 with a code that
    begins with neither "5" nor "2", for (30.0, "600") and for
    (20.0, "999"). *)
Theorem C7_no_alert_when_no_rule_matches :
  (forall (t : pynum) (c : string),
     check_alerts t c = Ok None <-> forall r, rule_matches r t c = false)
  /\ (forall (t : pynum) (c : string),
        py_lt f5 t = true -> py_lt t f28 = true ->
        startswith c "5" = false -> startswith c "2" = false ->
        check_alerts t c = Ok None)
  /\ check_alerts (PyFloat (float_lit 30)) "600" = Ok None
  /\ check_alerts (PyFloat (float_lit 20)) "999" = Ok None.
Proof.
  assert (Hiff : forall t c,
             check_alerts t c = Ok None <-> forall r, rule_matches r t c = false).
  { intros t c. rewrite check_alerts_first_match.
    unfold evaluate_spec, rule_order. cbn [List.find].
    split.
    - intros H r.
      destruct (rule_matches HEAT t c) eqn:E1; [discriminate H|].
      destruct (rule_matches COLD t c) eqn:E2; [discriminate H|].
      destruct (rule_matches RAIN t c) eqn:E3; [discriminate H|].
      destruct (rule_matches SUN t c) eqn:E4; [discriminate H|].
      destruct r; assumption.
    - intros H. rewrite (H HEAT), (H COLD), (H RAIN), (H SUN). reflexivity. }
  split; [exact Hiff|].
  split.
  - intros t c Hlo Hhi H5 H2. apply Hiff. intros r.
    destruct r; cbn [rule_matches].
    + apply below_28_not_hot, Hhi.
    + apply gt_not_le, Hlo.
    + rewrite H5, H2. reflexivity.
    + rewrite (lt_not_ge t f28 Hhi). reflexivity.
  - split; apply Hiff; intros r; destruct r; reflexivity.
Qed.

Lemma C7_witness :
  py_lt f5 (PyFloat (float_lit 15)) = true
  /\ py_lt (PyFloat (float_lit 15)) f28 = true
  /\ check_alerts (PyFloat (float_lit 15)) "803" = Ok None.
Proof.
  split; [reflexivity|]. split; [reflexivity|].
  exact (proj1 (proj2 C7_no_alert_when_no_rule_matches)
           (PyFloat (float_lit 15)) "803" eq_refl eq_refl eq_refl eq_refl).
Defined.

(** C1: the code "800" is compared as a whole before the first character is
    looked at: [classify "800"] is the row of key "800", which is not the
    row of key "8"; every other non-empty code whose first character is a
    key of the table gets the row of that key. *)
Theorem C1_exact_800_before_first_character :
  classify "800" = Ok clear_sky_entry
  /\ WEATHER_MAPPING !! "800" = Some clear_sky_entry
  /\ WEATHER_MAPPING !! "8" = Some clouds_entry
  /\ clear_sky_entry <> clouds_entry
  /\ forall (d : ascii) (rest : string) (e : pydict),
       String d rest <> "800" ->
       WEATHER_MAPPING !! String d EmptyString = Some e ->
       classify (String d rest) = Ok e.
Proof.
  split; [exact classify_800|].
  split; [reflexivity|]. split; [reflexivity|].
  split; [exact clear_sky_not_clouds|].
  intros d rest e Hne He. rewrite (classify_other _ Hne).
  unfold dict_get. cbn [category_key]. rewrite He. reflexivity.
Qed.

Lemma C1_witness :
  WEATHER_MAPPING !! "5" = Some rain_entry
  /\ classify "500" = Ok rain_entry
  /\ classify "804" = Ok clouds_entry.
Proof.
  split; [reflexivity|]. split.
  - apply (proj2 (proj2 (proj2 (proj2 C1_exact_800_before_first_character)))
             "5"%char "00" rain_entry); [discriminate|reflexivity].
  - apply (proj2 (proj2 (proj2 (proj2 C1_exact_800_before_first_character)))
             "8"%char "04" clouds_entry); [discriminate|reflexivity].
Defined.

(** C2: [classify] is total.  For every code it returns a row of the table,
    and every row has a colour and an icon; for the empty code and for a code
    whose first character is not a key it returns the row of "default". *)
Theorem C2_classify_total (c : string) :
  exists e : pydict,
    classify c = Ok e
    /\ (exists k : string, WEATHER_MAPPING !! k = Some e)
    /\ (exists (col : Colors) (ico : string),
          subscript e "color" = Ok (VColor col)
          /\ subscript e "icon" = Ok (VStr ico))
    /\ (c = "" -> e = default_entry)
    /\ (forall (d : ascii) (rest : string),
          c = String d rest ->
          WEATHER_MAPPING !! String d EmptyString = None ->
          e = default_entry).
Proof.
  assert (Hrow : forall k e, WEATHER_MAPPING !! k = Some e ->
            exists (col : Colors) (ico : string),
              subscript e "color" = Ok (VColor col)
              /\ subscript e "icon" = Ok (VStr ico)).
  { intros k e H.
    destruct (WEATHER_MAPPING_row_fields k e H) as (col & ico & Hc & Hi).
    exists col, ico. split; [apply subscript_color|apply subscript_icon];
      assumption. }
  assert (Hdef : WEATHER_MAPPING !! "default" = Some default_entry)
    by reflexivity.
  destruct (decide (c = "800")) as [->|Hne].
  - exists clear_sky_entry. split; [exact classify_800|].
    split; [exists "800"; reflexivity|].
    split; [apply (Hrow "800"); reflexivity|].
    split; [discriminate|].
    intros d rest Hc Hn. injection Hc as <- <-.
    assert (H8 : WEATHER_MAPPING !! "8" = Some clouds_entry) by reflexivity.
    congruence.
  - rewrite (classify_other c Hne). unfold dict_get.
    destruct (WEATHER_MAPPING !! category_key c) as [e|] eqn:E.
    + exists e. split; [reflexivity|].
      split; [exists (category_key c); exact E|].
      split; [exact (Hrow _ _ E)|].
      split.
      * intros ->. cbn [category_key] in E. congruence.
      * intros d rest -> Hn. cbn [category_key] in E. congruence.
    + exists default_entry. split; [reflexivity|].
      split; [exists "default"; exact Hdef|].
      split; [exact (Hrow _ _ Hdef)|].
      split; reflexivity.
Qed.

(** C10: only the code "800" gets the clear-sky row: for every other code
    the row returned differs from it, in colour and in icon. *)
Theorem C10_clear_sky_only_for_800 (c : string) :
  c <> "800" ->
  exists e : pydict,
    classify c = Ok e
    /\ e <> clear_sky_entry
    /\ color_of e <> color_of clear_sky_entry
    /\ icon_of e <> icon_of clear_sky_entry.
Proof.
  intros Hne. rewrite (classify_other c Hne). unfold dict_get.
  destruct (WEATHER_MAPPING !! category_key c) as [e|] eqn:E.
  - assert (Hc : color_of e <> color_of clear_sky_entry).
    { intros H. exact (category_key_not_800 c (clear_sky_color_key _ _ E H)). }
    assert (Hi : icon_of e <> icon_of clear_sky_entry).
    { intros H. exact (category_key_not_800 c (clear_sky_icon_key _ _ E H)). }
    exists e. split; [reflexivity|]. split; [|split; assumption].
    intros ->. apply Hc. reflexivity.
  - assert (Hc : color_of default_entry <> color_of clear_sky_entry).
    { intros H. vm_compute in H. discriminate H. }
    assert (Hi : icon_of default_entry <> icon_of clear_sky_entry).
    { intros H. vm_compute in H. discriminate H. }
    exists default_entry. split; [reflexivity|]. split; [|split; assumption].
    intros H. apply Hc. rewrite H. reflexivity.
Qed.

Lemma C10_witness :
  (exists e : pydict,
     classify "8000" = Ok e /\ e <> clear_sky_entry
     /\ color_of e <> color_of clear_sky_entry
     /\ icon_of e <> icon_of clear_sky_entry)
  /\ (exists e : pydict,
        classify "80" = Ok e /\ e <> clear_sky_entry
        /\ color_of e <> color_of clear_sky_entry
        /\ icon_of e <> icon_of clear_sky_entry).
Proof.
  split.
  - apply (C10_clear_sky_only_for_800 "8000"). discriminate.
  - apply (C10_clear_sky_only_for_800 "80"). discriminate.
Defined.

(** C8, as the code has it: an absent temperature reaches the two decisions
    as the integer 0, which Python holds equal to 0.0; an absent condition
    code (no weather list, or a first entry without id) reaches them as the
    string "0", on which they decide as on the empty string. *)
Theorem C8_missing_fields_defaults (data : payload) :
  (temp_absent data = true ->
   read_temp data = PyInt 0
   /\ py_eq (PyInt 0) (PyFloat (float_lit 0)) = true
   /\ forall c : string,
        read_weather_id data = Ok c -> core_inputs data = Ok (PyInt 0, c))
  /\ (id_absent data = true ->
      core_inputs data = Ok (read_temp data, "0"))
  /\ classify "0" = classify ""
  /\ forall t : pynum, check_alerts t "0" = check_alerts t "".
Proof.
  split.
  - intros H. split; [exact (read_temp_absent data H)|].
    split; [reflexivity|].
    intros c Hc. rewrite (core_inputs_Ok data c Hc), (read_temp_absent data H).
    reflexivity.
  - split; [|exact zero_code_as_empty].
    intros H. apply core_inputs_Ok, read_weather_id_absent, H.
Qed.

Lemma C8_witness :
  core_inputs {| main := Some {| temp := None |};
                 weather := Some [ {| entry_id := Some 800 |} ] |}
  = Ok (PyInt 0, "800")
  /\ core_inputs {| main := Some {| temp := Some f28 |};
                    weather := Some [ {| entry_id := None |} ] |}
     = Ok (f28, "0").
Proof.
  split.
  - exact (proj2 (proj2 (proj1 (C8_missing_fields_defaults
             {| main := Some {| temp := None |};
                weather := Some [ {| entry_id := Some 800 |} ] |}) eq_refl))
             "800" eq_refl).
  - exact (proj1 (proj2 (C8_missing_fields_defaults
             {| main := Some {| temp := Some f28 |};
                weather := Some [ {| entry_id := None |} ] |})) eq_refl).
Defined.

(** C8 as the specification words it fails: with no weather list, and with a
    first entry that has no id, the code handed on is "0", not the empty
    string. *)
Lemma C8_counterexample :
  id_absent {| main := None; weather := None |} = true
  /\ core_inputs {| main := None; weather := None |} = Ok (PyInt 0, "0")
  /\ id_absent {| main := None; weather := Some [ {| entry_id := None |} ] |}
     = true
  /\ core_inputs {| main := None; weather := Some [ {| entry_id := None |} ] |}
     = Ok (PyInt 0, "0")
  /\ "0" <> "".
Proof. repeat split; discriminate. Qed.

(** * Further properties: the page and its handlers *)

(** ** [strip] *)

Lemma lstrip_empty_iff (s : list N) :
  lstrip s = [] <-> all_space s = true.
Proof.
  induction s as [|ch rest IH]; simpl; [tauto|].
  destruct (isspace ch); simpl; [exact IH|].
  split; discriminate.
Qed.

Lemma rstrip_empty_iff (s : list N) :
  rstrip s = [] <-> all_space s = true.
Proof.
  induction s as [|ch rest IH]; simpl; [tauto|].
  destruct (rstrip rest) as [|b kept].
  - destruct (isspace ch); simpl.
    + split; [intros _; apply IH; reflexivity|reflexivity].
    + split; discriminate.
  - split; [discriminate|]. intros H. apply andb_true_iff in H.
    destruct H as [_ H]. apply IH in H. discriminate H.
Qed.

Lemma lstrip_all_space (s : list N) :
  all_space (lstrip s) = true -> lstrip s = [].
Proof.
  induction s as [|ch rest IH]; simpl; [reflexivity|].
  destruct (isspace ch) eqn:E; [exact IH|].
  simpl. rewrite E. discriminate.
Qed.

Lemma strip_empty_iff (s : list N) :
  strip s = [] <-> all_space s = true.
Proof.
  unfold strip. rewrite rstrip_empty_iff. split.
  - intros H. apply lstrip_empty_iff, lstrip_all_space, H.
  - intros H. apply lstrip_empty_iff in H. rewrite H. reflexivity.
Qed.

(** The whitespace is that of Unicode: an ideographic space is stripped, an
    accented letter and a zero-width space are kept. *)
Example strip_ideographic_space :
  strip [12288; 79; 115; 108; 111; 160; 8195]%N = [79; 115; 108; 111]%N.
Proof. reflexivity. Qed.

Example strip_keeps_letters :
  strip [65; 108; 99; 97; 108; 224]%N = [65; 108; 99; 97; 108; 224]%N
  /\ strip [8203; 65]%N = [8203; 65]%N.
Proof. split; reflexivity. Qed.

(** ** [toggle_theme] *)

Lemma toggle_theme_run (w : widgets) :
  toggle_theme w
  = let w' :=
      match page_theme_mode w with
      | LIGHT => set_theme_button_icon LIGHT_MODE (set_page_theme_mode DARK w)
      | _ => set_theme_button_icon DARK_MODE (set_page_theme_mode LIGHT w)
      end in
    (Done tt, w', [w']).
Proof. unfold toggle_theme. destruct (page_theme_mode w); reflexivity. Qed.

Lemma show_error_run (message : string) (w : widgets) :
  show_error message w = (Done tt, error_view message w, [error_view message w]).
Proof. reflexivity. Qed.

(** ** [display_weather] *)

(** Each alert of the table has a text and a colour, and is a true value. *)
Lemma alert_fields (r : rule_name) :
  exists (text : string) (col : Colors),
    alert_of r !! "recommendation" = Some (VStr text)
    /\ alert_of r !! "color" = Some (VColor col)
    /\ truthy (Some (alert_of r)) = true.
Proof. destruct r; do 2 eexists; repeat split; reflexivity. Qed.

Lemma display_weather_handler_raises (resp : response) (w : widgets) (e : exn) :
  core_inputs (data_of resp) = Raise e ->
  display_weather_handler resp w = (Raised (Builtin e), w, []).
Proof.
  intros H. unfold display_weather_handler, and_then, pure. rewrite H.
  reflexivity.
Qed.

Lemma display_weather_handler_run (resp : response) (w : widgets)
    (t : pynum) (c : string) (row : pydict) (bg ic : pyvalue) :
  core_inputs (data_of resp) = Ok (t, c) ->
  classify c = Ok row ->
  color_of row = Some bg -> icon_of row = Some ic ->
  display_weather_handler resp w
  = let themed :=
      set_page_bgcolor bg
        (set_custom_icon_display_value ic
           (banner_for (evaluate_spec t c) w)) in
    if texts_format resp
    then (Done tt, card_shown themed, [card_fading_in themed; card_shown themed])
    else (Raised FormatError, themed, []).
Proof.
  intros Hin Hrow Hbg Hic.
  unfold display_weather_handler, and_then, pure, build_column, raise.
  rewrite Hin. cbn [fst snd]. rewrite Hrow.
  rewrite (subscript_color row bg Hbg), (subscript_icon row ic Hic).
  rewrite check_alerts_first_match.
  unfold evaluate_spec.
  destruct (List.find (fun r => rule_matches r t c) rule_order) as [r|];
    cbn [fmap option_fmap option_map].
  - destruct (alert_fields r) as (text & col & Ht & Hc & Htrue).
    rewrite Htrue. unfold banner_for, subscript. rewrite Ht, Hc.
    destruct (texts_format resp); reflexivity.
  - unfold banner_for. destruct (texts_format resp); reflexivity.
Qed.

(** ** [get_weather] *)

Lemma get_weather_blank (service : list N -> service_outcome) (w : widgets) :
  all_space (city_input_value w) = true ->
  get_weather service w = show_error "Please enter a city name." w.
Proof.
  intros H. apply strip_empty_iff in H. unfold get_weather. rewrite H.
  reflexivity.
Qed.

Lemma get_weather_query (service : list N -> service_outcome) (w : widgets) :
  all_space (city_input_value w) = false ->
  get_weather service w
  = match attempt service (strip (city_input_value w)) (searching w) with
    | (r, w2, frames) =>
        (match r with Done _ => Done tt | Raised e => Raised e end,
         set_loading_visible false w2,
         searching w :: frames ++ [set_loading_visible false w2])
    end.
Proof.
  intros H. unfold get_weather.
  destruct (strip (city_input_value w)) as [|a city'] eqn:E.
  - apply strip_empty_iff in E. congruence.
  - unfold and_then, assign, page_update, try_finally.
    fold (searching w). fold (attempt service (a :: city')).
    destruct (attempt service (a :: city') (searching w)) as [[r w2] frames].
    destruct r as [[]|e]; reflexivity.
Qed.


(** ** The city the service is asked for *)

Lemma lstrip_head (s : list N) (a : N) (rest : list N) :
  lstrip s = (a :: rest) -> isspace a = false.
Proof.
  induction s as [|b s' IH]; simpl; [discriminate|].
  destruct (isspace b) eqn:E; [exact IH|].
  intros [= <- <-]. exact E.
Qed.

Lemma rstrip_head (a : N) (rest : list N) :
  rstrip ((a :: rest)) = []
  \/ exists kept, rstrip ((a :: rest)) = (a :: kept).
Proof.
  simpl. destruct (rstrip rest) as [|b kept].
  - destruct (isspace a); [left; reflexivity|right; eauto].
  - right. eauto.
Qed.

Lemma last_cons (l : list N) (c d : N) :
  List.last (c :: l) d = List.last l c.
Proof.
  revert c d. induction l as [|x l IH]; intros c d; [reflexivity|].
  change (List.last (c :: x :: l) d) with (List.last (x :: l) d).
  rewrite !IH. reflexivity.
Qed.

Lemma rstrip_last (s : list N) (a : N) (kept : list N) :
  rstrip s = (a :: kept) -> isspace (List.last kept a) = false.
Proof.
  revert a kept. induction s as [|b s' IH]; simpl; [discriminate|].
  intros a kept. destruct (rstrip s') as [|c kept'] eqn:E.
  - destruct (isspace b) eqn:Eb; [discriminate|].
    intros [= <- <-]. exact Eb.
  - intros [= <- <-]. rewrite last_cons. apply (IH c kept'). reflexivity.
Qed.

Lemma strip_trimmed (s : list N) :
  strip s = [] \/ trimmed (strip s) = true.
Proof.
  unfold strip. destruct (lstrip s) as [|a rest] eqn:E; [left; reflexivity|].
  destruct (rstrip_head a rest) as [H|[kept H]]; [left; exact H|].
  right. rewrite H. unfold trimmed.
  rewrite (lstrip_head s a rest E), (rstrip_last _ _ _ H). reflexivity.
Qed.

(** ** The two segments of [get_weather] *)

Lemma get_weather_until_await_run (w : widgets) :
  get_weather_until_await w
  = match strip (city_input_value w) with
    | [] =>
        (Done None, error_view "Please enter a city name." w,
         [error_view "Please enter a city name." w])
    | city => (Done (Some city), searching w, [searching w])
    end.
Proof.
  unfold get_weather_until_await.
  destruct (strip (city_input_value w)); reflexivity.
Qed.

(** A search on its own is its first segment followed, when the field is
    not blank, by its second, with nothing in between. *)
Lemma get_weather_segments (service : list N -> service_outcome) (w : widgets) :
  get_weather service w
  = and_then get_weather_until_await
      (fun waits =>
         match waits with
         | None => pure (Ok tt)
         | Some city => get_weather_from_await (service city)
         end) w.
Proof.
  unfold and_then. rewrite get_weather_until_await_run.
  unfold get_weather.
  destruct (strip (city_input_value w)) as [|a city']; [reflexivity|].
  unfold get_weather_from_await, and_then, assign, page_update, try_finally.
  fold (searching w).
  destruct (try_block (service (a :: city')) (searching w)) as [[r w2] frames].
  destruct r as [[]|e]; reflexivity.
Qed.

(** The banner assignments leave the error message as it is. *)
Lemma banner_for_error (found : option pydict) (w : widgets) :
  error_message_visible (banner_for found w) = error_message_visible w.
Proof.
  unfold banner_for. destruct found as [d|]; [|reflexivity].
  destruct (d !! "recommendation"), (d !! "color"); reflexivity.
Qed.

(** ** What every page satisfies *)

Lemma settled_initial : settled initial_widgets.
Proof.
  unfold settled, coherent. cbn.
  refine (conj (conj _ _) (conj _ (conj _ _))); discriminate.
Qed.

Lemma settled_error_view (message : string) (w : widgets) :
  settled (error_view message w).
Proof.
  unfold settled, coherent. cbn.
  refine (conj (conj _ _) (conj _ (conj _ _)));
    first [discriminate | reflexivity].
Qed.

Lemma settled_searching (w : widgets) : settled (searching w).
Proof.
  unfold settled, coherent. cbn.
  refine (conj (conj _ _) (conj _ (conj _ _))); discriminate.
Qed.

(** The banner assignments put the text and the colour of one alert, or
    hide the banner. *)
Lemma banner_for_evaluate (t : pynum) (c : string) (w : widgets) :
  alert_banner_visible (banner_for (evaluate_spec t c) w) = true ->
  banner_of_an_alert (banner_for (evaluate_spec t c) w).
Proof.
  unfold evaluate_spec.
  destruct (List.find (fun r => rule_matches r t c) rule_order) as [r|];
    cbn [fmap option_fmap option_map banner_for].
  - destruct (alert_fields r) as (text & col & Ht & Hc & _).
    rewrite Ht, Hc. intros _. exists r. cbn. split; assumption.
  - cbn. discriminate.
Qed.

(** The [try] block leaves a settled page, whatever the page it starts
    from and whatever the answer. *)
Lemma try_block_settled (answer : service_outcome) (w : widgets) :
  exists (w2 : widgets) (frames : list widgets),
    try_block answer w = (Done tt, w2, frames) /\ settled w2.
Proof.
  assert (Herr : forall message w1,
    exists w2 frames,
      show_error message w1 = (Done tt, w2, frames) /\ settled w2).
  { intros message w1. rewrite show_error_run. do 2 eexists.
    split; [reflexivity|apply settled_error_view]. }
  unfold try_block. destruct answer as [resp|message|]; [|apply Herr..].
  unfold try_except.
  destruct (core_inputs (data_of resp)) as [[t c]|e] eqn:Hin.
  - destruct (classify_row c) as (row & k & Hrow & Hk).
    destruct (WEATHER_MAPPING_row_fields k row Hk) as (col & ico & Hc & Hi).
    rewrite (display_weather_handler_run resp _ t c row _ _ Hin Hrow Hc Hi).
    cbv zeta. destruct (texts_format resp).
    + do 2 eexists. split; [reflexivity|].
      unfold settled, coherent. cbn.
      refine (conj (conj _ _) (conj _ (conj _ _))).
      * discriminate.
      * reflexivity.
      * discriminate.
      * intros _. split; [reflexivity|].
        exists k, row. cbn. repeat split; assumption.
      * intros Hb.
        destruct (banner_for_evaluate t c w Hb) as (r & H1 & H2).
        exists r. cbn. split; assumption.
    + destruct (Herr unexpected
        (set_page_bgcolor (VColor col)
           (set_custom_icon_display_value (VStr ico)
              (banner_for (evaluate_spec t c) w))))
        as (w2 & frames & Hs & Hr).
      rewrite Hs. exists w2, frames. cbn [app]. split; [reflexivity|exact Hr].
  - rewrite (display_weather_handler_raises resp _ e Hin).
    destruct (Herr unexpected w) as (w2 & frames & Hs & Hr).
    rewrite Hs. exists w2, frames. cbn [app]. split; [reflexivity|exact Hr].
Qed.

Lemma get_weather_from_await_settled (answer : service_outcome) (w : widgets) :
  settled (after (get_weather_from_await answer) w)
  /\ loading_visible (after (get_weather_from_await answer) w) = false
  /\ outcome (get_weather_from_await answer) w = Done tt.
Proof.
  destruct (try_block_settled answer w) as (w2 & frames & Hrun & Hs).
  unfold after, outcome, get_weather_from_await, try_finally.
  rewrite Hrun. cbn. split; [exact Hs|]. split; reflexivity.
Qed.

Lemma step_in_order (ev : event) (a : session) : in_order a -> in_order (step ev a).
Proof.
  intros (Hs & Hl & Ht). destruct ev as [|text| |i answer]; cbn [step].
  - unfold after. rewrite toggle_theme_run. cbv zeta. cbn [fst snd].
    destruct (page_theme_mode (page a));
      (split; [exact Hs|split; [exact Hl|exact Ht]]).
  - split; [exact Hs|split; [exact Hl|exact Ht]].
  - unfold on_search. rewrite get_weather_until_await_run.
    pose proof (strip_trimmed (city_input_value (page a))) as Hc.
    destruct (strip (city_input_value (page a))) as [|ch city'].
    + split; [apply settled_error_view|]. split; [exact Hl|exact Ht].
    + destruct Hc as [Hc|Hc]; [discriminate Hc|].
      split; [apply settled_searching|]. split.
      * cbn [waiting]. intros H. apply app_eq_nil in H.
        destruct H as [_ H]. discriminate H.
      * cbn [waiting]. apply Forall_app. split; [exact Ht|].
        constructor; [exact Hc|constructor].
  - destruct (waiting a !! i) as [city|] eqn:E;
      [|split; [exact Hs|split; [exact Hl|exact Ht]]].
    destruct (get_weather_from_await_settled answer (page a)) as (H1 & H2 & _).
    split; [exact H1|]. split; [intros _; exact H2|].
    cbn [waiting]. apply Forall_delete, Ht.
Qed.

Lemma run_in_order (evs : list event) (a : session) :
  in_order a -> in_order (run evs a).
Proof.
  revert a. induction evs as [|ev rest IH]; intros a Ha; cbn [run].
  - exact Ha.
  - apply IH, step_in_order, Ha.
Qed.

(** A search that goes on from its [await] on a page that shows an error
    message, as a search that overlapped with it can leave it, sends a first
    frame with the card and the error message together: [display_weather]
    hides the message only before its second frame. *)
Lemma stale_error_on_first_frame (resp : response) (w : widgets)
    (t : pynum) (c : string) :
  core_inputs (data_of resp) = Ok (t, c) ->
  texts_format resp = true ->
  error_message_visible w = true ->
  exists (frame : widgets) (later : list widgets),
    sent (get_weather_from_await (Returns resp)) w = frame :: later
    /\ error_message_visible frame = true
    /\ weather_container_visible frame = true.
Proof.
  intros Hin Hfmt Herr.
  destruct (classify_row c) as (row & k & Hrow & Hk).
  destruct (WEATHER_MAPPING_row_fields k row Hk) as (col & ico & Hc & Hi).
  unfold sent, get_weather_from_await, try_finally, try_block, try_except.
  rewrite (display_weather_handler_run resp _ t c row _ _ Hin Hrow Hc Hi).
  cbv zeta. rewrite Hfmt. cbn [snd]. do 2 eexists.
  split; [reflexivity|]. cbn. rewrite banner_for_error.
  split; [exact Herr|reflexivity].
Qed.

(** Two searches that overlap: both started for Oslo, the second answered
    first, with an error.  The page then shows the error message with the
    spinner off while the first search still waits; and when the first is
    answered with the weather, the first frame it sends has the card and
    the error message together. *)
Example overlapping_searches :
  let oslo := code_points "Oslo" in
  let resp :=
    {| data_of :=
         {| main := Some {| temp := Some (PyFloat (float_lit 30)) |};
            weather := Some [ {| entry_id := Some 800 |} ] |};
       texts_format := true |} in
  let a :=
    run [EditCity oslo; StartSearch; StartSearch;
         Answer 1 (RaisesServiceError "City not found")] initial_session in
  waiting a = [oslo]
  /\ loading_visible (page a) = false
  /\ error_message_visible (page a) = true
  /\ exists (frame : widgets) (later : list widgets),
       sent (get_weather_from_await (Returns resp)) (page a) = frame :: later
       /\ error_message_visible frame = true
       /\ weather_container_visible frame = true.
Proof.
  cbv zeta. split; [reflexivity|]. split; [reflexivity|].
  split; [reflexivity|].
  apply (stale_error_on_first_frame _ _ (PyFloat (float_lit 30)) "800");
    reflexivity.
Qed.

(** X1: a click on the theme button leaves the page in light or in dark
    mode, never in the system mode it starts in; it goes to dark only from
    light (from the system mode it goes to light, whatever the system shows);
    the icon of the button is the sun exactly in dark mode; one frame is
    sent, and nothing else on the page changes. *)
Theorem toggle_theme_light_or_dark (w : widgets) :
  (page_theme_mode (after toggle_theme w) = LIGHT
   \/ page_theme_mode (after toggle_theme w) = DARK)
  /\ (page_theme_mode (after toggle_theme w) = DARK
      <-> page_theme_mode w = LIGHT)
  /\ (theme_button_icon (after toggle_theme w) = LIGHT_MODE
      <-> page_theme_mode (after toggle_theme w) = DARK)
  /\ sent toggle_theme w = [after toggle_theme w]
  /\ outcome toggle_theme w = Done tt
  /\ after toggle_theme w
     = set_theme_button_icon (theme_button_icon (after toggle_theme w))
         (set_page_theme_mode (page_theme_mode (after toggle_theme w)) w).
Proof.
  unfold after, sent, outcome. rewrite toggle_theme_run. cbv zeta.
  cbn [fst snd].
  destruct (page_theme_mode w) eqn:E; cbn;
    repeat split; auto; try discriminate; try congruence.
Qed.

(** X2: after the first click the theme button alternates: a third click
    gives the page of the first, widget for widget. *)
Theorem toggle_theme_thrice (w : widgets) :
  after toggle_theme (after toggle_theme (after toggle_theme w))
  = after toggle_theme w.
Proof.
  unfold after. rewrite !toggle_theme_run. cbv zeta. cbn [fst snd].
  destruct (page_theme_mode w); reflexivity.
Qed.

(** X3: a search with an empty city field, or one of whitespace only, asks
    the service nothing: whatever the service would answer, the page shows
    "Please enter a city name." with the card and the banner hidden and the
    background white, in one frame, and the spinner is not touched. *)
Theorem get_weather_blank_city (service : list N -> service_outcome)
    (w : widgets) :
  all_space (city_input_value w) = true ->
  get_weather service w
  = (Done tt, error_view "Please enter a city name." w,
     [error_view "Please enter a city name." w])
  /\ error_message_value (after (get_weather service) w)
     = "❌ Please enter a city name."
  /\ error_message_visible (after (get_weather service) w) = true
  /\ weather_container_visible (after (get_weather service) w) = false
  /\ alert_banner_visible (after (get_weather service) w) = false
  /\ page_bgcolor (after (get_weather service) w) = VColor WHITE
  /\ loading_visible (after (get_weather service) w) = loading_visible w.
Proof.
  intros H. unfold after.
  rewrite (get_weather_blank service w H), show_error_run.
  repeat split.
Qed.

Lemma get_weather_blank_city_witness :
  error_message_value
    (after (get_weather (fun _ => RaisesOther))
       (set_city_input_value (code_points "  ") initial_widgets))
  = "❌ Please enter a city name.".
Proof.
  exact (proj1 (proj2 (get_weather_blank_city (fun _ => RaisesOther)
                         (set_city_input_value (code_points "  ") initial_widgets) eq_refl))).
Defined.



(** X5: when the service returns a payload that [display_weather] can show,
    the page ends with the card at full opacity, the error message and the
    spinner off, the background and the large icon taken from the row
    [classify] gives for the code, and the banner set from what
    [check_alerts] returns: shown with its text and colour when there is an
    alert, hidden when there is none.  Four frames are sent: the spinner,
    the card at opacity 0, the card at opacity 1, the spinner off. *)
Theorem get_weather_shows_weather (service : list N -> service_outcome)
    (w : widgets) (resp : response) (t : pynum) (c : string) :
  all_space (city_input_value w) = false ->
  service (strip (city_input_value w)) = Returns resp ->
  texts_format resp = true ->
  core_inputs (data_of resp) = Ok (t, c) ->
  exists (row : pydict) (bg ic : pyvalue) (found : option pydict),
    classify c = Ok row
    /\ color_of row = Some bg /\ icon_of row = Some ic
    /\ check_alerts t c = Ok found
    /\ get_weather service w
       = (Done tt,
          set_loading_visible false
            (card_shown
               (set_page_bgcolor bg
                  (set_custom_icon_display_value ic
                     (banner_for found (searching w))))),
          [searching w;
           card_fading_in
             (set_page_bgcolor bg
                (set_custom_icon_display_value ic
                   (banner_for found (searching w))));
           card_shown
             (set_page_bgcolor bg
                (set_custom_icon_display_value ic
                   (banner_for found (searching w))));
           set_loading_visible false
             (card_shown
                (set_page_bgcolor bg
                   (set_custom_icon_display_value ic
                      (banner_for found (searching w)))))])
    /\ weather_container_visible (after (get_weather service) w) = true
    /\ weather_container_opacity (after (get_weather service) w) = Some 1
    /\ error_message_visible (after (get_weather service) w) = false
    /\ loading_visible (after (get_weather service) w) = false
    /\ page_bgcolor (after (get_weather service) w) = bg
    /\ custom_icon_display_value (after (get_weather service) w) = ic
    /\ (alert_banner_visible (after (get_weather service) w) = true
        <-> found <> None)
    /\ (forall alert : pydict,
          found = Some alert ->
          alert !! "recommendation"
          = Some (alert_banner_value (after (get_weather service) w))
          /\ alert !! "color"
             = alert_banner_bgcolor (after (get_weather service) w)).
Proof.
  intros Hcity Hs Hfmt Hin.
  destruct (classify_row c) as (row & k & Hrow & Hk).
  destruct (WEATHER_MAPPING_row_fields k row Hk) as (col & ico & Hc & Hi).
  exists row, (VColor col), (VStr ico), (evaluate_spec t c).
  split; [exact Hrow|]. split; [exact Hc|]. split; [exact Hi|].
  split; [apply check_alerts_first_match|].
  unfold after. rewrite (get_weather_query service w Hcity).
  unfold attempt, try_block, try_except. rewrite Hs.
  rewrite (display_weather_handler_run resp _ t c row _ _ Hin Hrow Hc Hi).
  cbv zeta. rewrite Hfmt. cbn [fst snd app].
  split; [reflexivity|].
  unfold evaluate_spec.
  destruct (List.find (fun r => rule_matches r t c) rule_order) as [r|];
    cbn [fmap option_fmap option_map banner_for].
  - destruct (alert_fields r) as (text & co & Ht & Hco & _).
    rewrite Ht, Hco.
    do 6 (split; [reflexivity|]). split.
    + split; [discriminate|reflexivity].
    + intros alert [= <-]. rewrite Ht, Hco. split; reflexivity.
  - do 6 (split; [reflexivity|]). split.
    + split; [discriminate|]. intros H. contradiction.
    + discriminate.
Qed.

Lemma get_weather_shows_weather_witness :
  exists (row : pydict) (bg ic : pyvalue) (found : option pydict),
    classify "800" = Ok row
    /\ color_of row = Some bg /\ icon_of row = Some ic
    /\ check_alerts (PyFloat (float_lit 30)) "800" = Ok found
    /\ page_bgcolor
         (after (get_weather (fun _ => Returns
            {| data_of :=
                 {| main := Some {| temp := Some (PyFloat (float_lit 30)) |};
                    weather := Some [ {| entry_id := Some 800 |} ] |};
               texts_format := true |}))
            (set_city_input_value (code_points "Oslo") initial_widgets))
       = bg.
Proof.
  destruct (get_weather_shows_weather
    (fun _ => Returns
       {| data_of :=
            {| main := Some {| temp := Some (PyFloat (float_lit 30)) |};
               weather := Some [ {| entry_id := Some 800 |} ] |};
          texts_format := true |})
    (set_city_input_value (code_points "Oslo") initial_widgets) _
    (PyFloat (float_lit 30)) "800" eq_refl eq_refl eq_refl eq_refl)
    as (row & bg & ic & found & H1 & H2 & H3 & H4 & _ & _ & _ & _ & _ & H5 & _).
  exists row, bg, ic, found. repeat split; assumption.
Defined.

(** X6: when the service returns a payload whose weather list is empty,
    [display_weather] raises before it assigns anything, and the page ends
    exactly as for an unexpected exception of the service: the fixed error
    text, card and banner hidden, background white, spinner off, the large
    icon as it was. *)
Theorem get_weather_empty_weather_list (service : list N -> service_outcome)
    (w : widgets) (resp : response) :
  all_space (city_input_value w) = false ->
  service (strip (city_input_value w)) = Returns resp ->
  weather (data_of resp) = Some [] ->
  outcome (display_weather_handler resp) w = Raised (Builtin IndexError)
  /\ after (display_weather_handler resp) w = w
  /\ sent (display_weather_handler resp) w = []
  /\ get_weather service w
     = (Done tt,
        set_loading_visible false (error_view unexpected (searching w)),
        [searching w;
         error_view unexpected (searching w);
         set_loading_visible false (error_view unexpected (searching w))])
  /\ custom_icon_display_value (after (get_weather service) w)
     = custom_icon_display_value w.
Proof.
  intros Hcity Hs Hw.
  assert (Hin : core_inputs (data_of resp) = Raise IndexError).
  { unfold core_inputs, read_weather_id. rewrite Hw. reflexivity. }
  unfold outcome, after, sent.
  rewrite (display_weather_handler_raises resp w _ Hin).
  do 3 (split; [reflexivity|]).
  rewrite (get_weather_query service w Hcity). unfold attempt, try_block, try_except.
  rewrite Hs, (display_weather_handler_raises resp _ _ Hin), show_error_run.
  split; reflexivity.
Qed.

Lemma get_weather_empty_weather_list_witness :
  error_message_value
    (after (get_weather (fun _ => Returns
       {| data_of := {| main := None; weather := Some [] |};
          texts_format := true |}))
       (set_city_input_value (code_points "Oslo") initial_widgets))
  = "❌ An unexpected error occurred. Please try again.".
Proof.
  exact (f_equal (fun r => error_message_value (snd (fst r)))
    (proj1 (proj2 (proj2 (proj2 (get_weather_empty_weather_list
       (fun _ => Returns
          {| data_of := {| main := None; weather := Some [] |};
             texts_format := true |})
       (set_city_input_value (code_points "Oslo") initial_widgets) _
       eq_refl eq_refl eq_refl)))))).
Defined.

(** X7: when the texts of the card do not format, [display_weather] raises
    after it has set the banner, the large icon and the background.  The
    page still ends with the fixed error text alone, card and banner hidden,
    background white and spinner off, but the large icon is already the one
    of the new weather. *)
Theorem get_weather_format_error (service : list N -> service_outcome)
    (w : widgets) (resp : response) (t : pynum) (c : string) :
  all_space (city_input_value w) = false ->
  service (strip (city_input_value w)) = Returns resp ->
  texts_format resp = false ->
  core_inputs (data_of resp) = Ok (t, c) ->
  exists (row : pydict),
    classify c = Ok row
    /\ outcome (get_weather service) w = Done tt
    /\ error_message_value (after (get_weather service) w)
       = "❌ " ++ unexpected
    /\ error_message_visible (after (get_weather service) w) = true
    /\ weather_container_visible (after (get_weather service) w) = false
    /\ alert_banner_visible (after (get_weather service) w) = false
    /\ page_bgcolor (after (get_weather service) w) = VColor WHITE
    /\ loading_visible (after (get_weather service) w) = false
    /\ icon_of row
       = Some (custom_icon_display_value (after (get_weather service) w)).
Proof.
  intros Hcity Hs Hfmt Hin.
  destruct (classify_row c) as (row & k & Hrow & Hk).
  destruct (WEATHER_MAPPING_row_fields k row Hk) as (col & ico & Hc & Hi).
  exists row. split; [exact Hrow|].
  unfold outcome, after. rewrite (get_weather_query service w Hcity).
  unfold attempt, try_block, try_except. rewrite Hs.
  rewrite (display_weather_handler_run resp _ t c row _ _ Hin Hrow Hc Hi).
  cbv zeta. rewrite Hfmt, show_error_run. cbn [fst snd app].
  do 7 (split; [reflexivity|]). exact Hi.
Qed.

Lemma get_weather_format_error_witness :
  exists (row : pydict),
    classify "800" = Ok row
    /\ icon_of row
       = Some (custom_icon_display_value
           (after (get_weather (fun _ => Returns
              {| data_of :=
                   {| main := None;
                      weather := Some [ {| entry_id := Some 800 |} ] |};
                 texts_format := false |}))
              (set_city_input_value (code_points "Oslo") initial_widgets))).
Proof.
  destruct (get_weather_format_error
    (fun _ => Returns
       {| data_of :=
            {| main := None;
               weather := Some [ {| entry_id := Some 800 |} ] |};
          texts_format := false |})
    (set_city_input_value (code_points "Oslo") initial_widgets) _ (PyInt 0) "800"
    eq_refl eq_refl eq_refl eq_refl)
    as (row & H1 & _ & _ & _ & _ & _ & _ & _ & H2).
  exists row. split; assumption.
Defined.

(** X8: whatever happens from the start of the application, clicks on the
    theme button, edits of the city field, searches started, and answers of
    any kind arriving in any order to the searches that wait, so with
    searches that overlap: between two segments the page never shows the
    error message together with the card, nor the banner without the card;
    it shows the error message only on a white background, the card only at
    full opacity and with background and large icon of one and the same row
    of [WEATHER_MAPPING], and the banner only with the text and colour of
    one alert of [ALERT_THRESHOLDS]; the spinner is off whenever no search
    waits; and every search that waits asked for a trimmed city.  (The
    frames sent inside a segment are not covered: see
    [stale_error_on_first_frame].) *)
Theorem page_settled_between_segments (evs : list event) :
  settled (page (run evs initial_session))
  /\ (waiting (run evs initial_session) = [] ->
      loading_visible (page (run evs initial_session)) = false)
  /\ Forall (fun city => trimmed city = true)
       (waiting (run evs initial_session)).
Proof.
  apply (run_in_order evs initial_session).
  split; [exact settled_initial|]. split; [reflexivity|constructor].
Qed.



(** ** The spinner *)





(** ** The ids of the provider *)

Lemma id_text_checked (n : Z) :
  100 <= n <= 999 -> id_text_ok n = true.
Proof.
  intros Hn.
  assert (Hall : forallb id_text_ok (seqZ 100 900) = true)
    by (vm_compute; reflexivity).
  rewrite forallb_forall in Hall. apply Hall.
  apply list_elem_of_In, elem_of_seqZ. lia.
Qed.

Lemma id_text (n : Z) :
  100 <= n <= 999 ->
  category_key (str_int n) = digit_key (n / 100)
  /\ (str_int n = "800" <-> n = 800)
  /\ startswith (str_int n) "5" = (n / 100 =? 5)
  /\ startswith (str_int n) "2" = (n / 100 =? 2)
  /\ startswith (str_int n) "6" = (n / 100 =? 6).
Proof.
  intros Hn. pose proof (id_text_checked n Hn) as H. unfold id_text_ok in H.
  repeat (apply andb_true_iff in H; destruct H as [H ?]).
  apply String.eqb_eq in H.
  repeat match goal with
         | Hb : Bool.eqb _ _ = true |- _ => apply Bool.eqb_prop in Hb
         end.
  split; [exact H|]. split; [|repeat split; assumption].
  rewrite <- String.eqb_eq, <- Z.eqb_eq.
  match goal with Hb : String.eqb _ _ = _ |- _ => rewrite Hb end.
  tauto.
Qed.

Lemma hundreds (n : Z) : 100 <= n <= 999 -> 1 <= n / 100 <= 9.
Proof.
  intros Hn. split.
  - apply Z.div_le_lower_bound; lia.
  - apply Z.lt_succ_r. apply Z.div_lt_upper_bound; lia.
Qed.

(** X11: for a three-digit id of the provider the category is read off its
    hundreds digit, 800 apart: 2xx the storm row, 3xx drizzle, 5xx rain, 6xx
    snow, 7xx mist, 800 clear sky, 801 to 899 clouds, and the default row
    for 1xx, 4xx and 9xx. *)
Theorem classify_three_digit_id (n : Z) :
  100 <= n <= 999 -> classify (str_int n) = Ok (row_of_id n).
Proof.
  intros Hn. destruct (id_text n Hn) as (Hkey & H800 & _).
  pose proof (hundreds n Hn) as Hq. unfold row_of_id.
  destruct (Z.eqb_spec n 800) as [->|Hne]; [reflexivity|].
  assert (Hs : str_int n <> "800") by (intros H; apply Hne, H800, H).
  rewrite (classify_other _ Hs), Hkey. unfold dict_get.
  assert (Hc : n / 100 = 1 \/ n / 100 = 2 \/ n / 100 = 3 \/ n / 100 = 4
               \/ n / 100 = 5 \/ n / 100 = 6 \/ n / 100 = 7 \/ n / 100 = 8
               \/ n / 100 = 9) by lia.
  repeat (destruct Hc as [Hc|Hc]; [rewrite Hc; reflexivity|]).
  rewrite Hc. reflexivity.
Qed.

Lemma classify_three_digit_id_witness :
  classify (str_int 804) = Ok clouds_entry
  /\ classify (str_int 211) = Ok storm_entry.
Proof.
  split.
  - exact (classify_three_digit_id 804 (conj (Zle_bool_imp_le 100 804 eq_refl)
                                             (Zle_bool_imp_le 804 999 eq_refl))).
  - exact (classify_three_digit_id 211 (conj (Zle_bool_imp_le 100 211 eq_refl)
                                             (Zle_bool_imp_le 211 999 eq_refl))).
Defined.

(** X12: for a three-digit id and a temperature strictly between 5.0 and
    35.0 the alert is read off the hundreds digit: rain for 2xx and 5xx;
    otherwise the UV alert from 28.0 on, except for 6xx; otherwise none. *)
Theorem check_alerts_three_digit_id (n : Z) (t : pynum) :
  100 <= n <= 999 ->
  py_lt f5 t = true -> py_lt t f35 = true ->
  check_alerts t (str_int n)
  = Ok (if (n / 100 =? 5) || (n / 100 =? 2) then Some RAIN_alert
        else if py_ge t f28 && negb (n / 100 =? 6) then Some SUN_alert
        else None).
Proof.
  intros Hn Hlo Hhi. destruct (id_text n Hn) as (_ & _ & H5 & H2 & H6).
  rewrite (check_alerts_mild t _ (lt_not_ge t f35 Hhi) (gt_not_le t f5 Hlo)).
  cbn [rule_matches]. rewrite H5, H2, H6.
  destruct (n / 100 =? 5), (n / 100 =? 2), (n / 100 =? 6), (py_ge t f28);
    reflexivity.
Qed.

Lemma check_alerts_three_digit_id_witness :
  check_alerts (PyFloat (float_lit 30)) (str_int 601) = Ok None
  /\ check_alerts (PyFloat (float_lit 30)) (str_int 701) = Ok (Some SUN_alert).
Proof.
  split.
  - exact (check_alerts_three_digit_id 601 (PyFloat (float_lit 30))
             (conj (Zle_bool_imp_le 100 601 eq_refl)
                   (Zle_bool_imp_le 601 999 eq_refl)) eq_refl eq_refl).
  - exact (check_alerts_three_digit_id 701 (PyFloat (float_lit 30))
             (conj (Zle_bool_imp_le 100 701 eq_refl)
                   (Zle_bool_imp_le 701 999 eq_refl)) eq_refl eq_refl).
Defined.

(** X13: the service is only ever asked for a trimmed city, one that is not
    empty and has no whitespace character at either end: a search runs the
    same with the service and with the service cut down to trimmed cities;
    and stripping the city asked for again changes nothing. *)
Theorem get_weather_asks_trimmed_city (service : list N -> service_outcome)
    (w : widgets) :
  get_weather service w
  = get_weather
      (fun city => if trimmed city then service city else RaisesOther) w
  /\ (strip (city_input_value w) = []
      \/ trimmed (strip (city_input_value w)) = true)
  /\ strip (strip (city_input_value w)) = strip (city_input_value w).
Proof.
  pose proof (strip_trimmed (city_input_value w)) as Ht.
  split; [|split; [exact Ht|]].
  - unfold get_weather.
    destruct (strip (city_input_value w)) as [|a city'] eqn:E; [reflexivity|].
    destruct Ht as [Ht|Ht]; [discriminate Ht|]. rewrite Ht. reflexivity.
  - destruct (strip (city_input_value w)) as [|a city'] eqn:E; [reflexivity|].
    destruct Ht as [Ht|Ht]; [discriminate Ht|].
    unfold trimmed in Ht. apply andb_true_iff in Ht. destruct Ht as [Ha Hl].
    apply negb_true_iff in Ha, Hl.
    unfold strip. cbn [lstrip]. rewrite Ha.
    clear E Ha. revert a Hl. induction city' as [|b rest IH]; intros a Hl.
    + simpl in *. rewrite Hl. reflexivity.
    + rewrite last_cons in Hl. specialize (IH b Hl).
      change (rstrip (a :: b :: rest))
        with (match rstrip (b :: rest) with
              | [] => if isspace a then [] else [a]
              | kept => a :: kept
              end).
      rewrite IH. reflexivity.
Qed.

(** ** The decisions over other tables *)

(** X14: the order of the rules does not depend on the numbers in the
    table.  For any thresholds and any rain prefix stored under the keys
    [check_alerts] reads, it never raises and returns the first match of:
    heat, cold, rain (the stored prefix or "2"), sun (with the fixed
    exclusions "6", "2", "5").  So the heat entry wins wherever the heat and
    cold ranges overlap, and a code that starts with "2", "5" or "6" never
    gets the sun entry by the fourth rule, whatever the stored prefix is. *)
Theorem check_alerts_in_any_thresholds (AT : gmap string pydict)
    (heat cold rain sun : pydict) (h l u : pynum) (p : string)
    (t : pynum) (c : string) :
  AT !! "HEAT" = Some heat -> heat !! "temp" = Some (VNum h) ->
  AT !! "COLD" = Some cold -> cold !! "temp" = Some (VNum l) ->
  AT !! "RAIN" = Some rain -> rain !! "group_id_prefix" = Some (VStr p) ->
  AT !! "SUN" = Some sun -> sun !! "uv_temp" = Some (VNum u) ->
  check_alerts_in AT t c
  = Ok (if py_ge t h then Some heat
        else if py_le t l then Some cold
        else if startswith c p || startswith c "2" then Some rain
        else if py_ge t u
                && negb (startswith c "6" || startswith c "2"
                         || startswith c "5")
             then Some sun
        else None)
  /\ (py_ge t h = true -> check_alerts_in AT t c = Ok (Some heat)).
Proof.
  intros H1 H2 H3 H4 H5 H6 H7 H8.
  assert (Heq : check_alerts_in AT t c
    = Ok (if py_ge t h then Some heat
          else if py_le t l then Some cold
          else if startswith c p || startswith c "2" then Some rain
          else if py_ge t u
                  && negb (startswith c "6" || startswith c "2"
                           || startswith c "5")
               then Some sun
          else None)).
  { unfold check_alerts_in.
    rewrite (subscript_lookup AT _ _ H1), (subscript_lookup AT _ _ H3),
      (subscript_lookup AT _ _ H5), (subscript_lookup AT _ _ H7).
    cbn [mbind result_bind mret result_ret].
    rewrite (subscript_lookup heat _ _ H2), (subscript_lookup cold _ _ H4),
      (subscript_lookup rain _ _ H6), (subscript_lookup sun _ _ H8).
    cbn [mbind result_bind ge_value le_value startswith_value mret result_ret].
    rewrite startswith_any_625.
    destruct (py_ge t h); [reflexivity|].
    destruct (py_le t l); [reflexivity|].
    destruct (startswith c p || startswith c "2"); [reflexivity|].
    destruct (py_ge t u && _); reflexivity. }
  split; [exact Heq|]. intros Hh. rewrite Heq, Hh. reflexivity.
Qed.

Lemma check_alerts_in_any_thresholds_witness :
  check_alerts_in ALERT_THRESHOLDS (PyFloat (float_lit 40)) "500"
  = Ok (Some HEAT_alert).
Proof.
  exact (proj2 (check_alerts_in_any_thresholds ALERT_THRESHOLDS
           HEAT_alert COLD_alert RAIN_alert SUN_alert f35 f5 f28 "5"
           (PyFloat (float_lit 40)) "500"
           eq_refl eq_refl eq_refl eq_refl eq_refl eq_refl eq_refl eq_refl)
          eq_refl).
Defined.

(** X15: the category choice needs the rows "800" and "default" of the
    table, and no other.  The code "800" raises [KeyError] exactly when the
    row "800" is missing; every other code raises [KeyError] exactly when
    the row "default" is missing, also when its own row is there, because
    the default is read before the lookup; with the default row there, a
    code gets its own row or else the default row. *)
Theorem classify_in_needs_default (WM : gmap string pydict) (c : string) :
  (classify_in WM "800" = Raise KeyError <-> WM !! "800" = None)
  /\ (c <> "800" ->
      (classify_in WM c = Raise KeyError <-> WM !! "default" = None)
      /\ forall dflt : pydict,
           WM !! "default" = Some dflt ->
           classify_in WM c = Ok (default dflt (WM !! category_key c))).
Proof.
  split.
  - unfold classify_in, subscript.
    destruct (decide ("800" = "800")) as [_|E]; [|contradiction].
    destruct (WM !! "800"); split; first [discriminate | reflexivity].
  - intros Hc. unfold classify_in, subscript, dict_get.
    destruct (decide (c = "800")) as [E|_]; [contradiction|].
    destruct (WM !! "default") as [d|]; cbn.
    + split; [split; discriminate|].
      intros dflt [= <-]. destruct (WM !! category_key c); reflexivity.
    + split; [split; reflexivity|discriminate].
Qed.

Lemma classify_in_needs_default_witness :
  classify_in {[ "5" := rain_entry ]} "500" = Raise KeyError.
Proof.
  apply (proj1 (proj2 (classify_in_needs_default {[ "5" := rain_entry ]} "500")
                  ltac:(discriminate))).
  reflexivity.
Defined.

(** X16: what [display_weather] shows depends on the response alone, not
    on the page it starts from: from any two pages it leaves the same
    background, large icon, card, error message and banner visibility, and
    the same banner text and colour when the banner is shown; and showing
    the same response a second time changes nothing.  (The text and colour
    of a hidden banner are those of an earlier response.) *)
Theorem display_weather_depends_on_response_only (resp : response)
    (w1 w2 : widgets) :
  outcome (display_weather_handler resp) w1
  = outcome (display_weather_handler resp) w2
  /\ (outcome (display_weather_handler resp) w1 = Done tt ->
      page_bgcolor (after (display_weather_handler resp) w1)
      = page_bgcolor (after (display_weather_handler resp) w2)
      /\ custom_icon_display_value (after (display_weather_handler resp) w1)
         = custom_icon_display_value (after (display_weather_handler resp) w2)
      /\ weather_container_visible (after (display_weather_handler resp) w1)
         = true
      /\ weather_container_opacity (after (display_weather_handler resp) w1)
         = Some 1
      /\ error_message_visible (after (display_weather_handler resp) w1)
         = false
      /\ alert_banner_visible (after (display_weather_handler resp) w1)
         = alert_banner_visible (after (display_weather_handler resp) w2)
      /\ (alert_banner_visible (after (display_weather_handler resp) w1) = true ->
          alert_banner_value (after (display_weather_handler resp) w1)
          = alert_banner_value (after (display_weather_handler resp) w2)
          /\ alert_banner_bgcolor (after (display_weather_handler resp) w1)
             = alert_banner_bgcolor (after (display_weather_handler resp) w2)))
  /\ after (display_weather_handler resp)
       (after (display_weather_handler resp) w1)
     = after (display_weather_handler resp) w1.
Proof.
  unfold outcome, after.
  destruct (core_inputs (data_of resp)) as [[t c]|e] eqn:Hin.
  - destruct (classify_row c) as (row & k & Hrow & Hk).
    destruct (WEATHER_MAPPING_row_fields k row Hk) as (col & ico & Hc & Hi).
    rewrite !(display_weather_handler_run resp _ t c row _ _ Hin Hrow Hc Hi).
    cbv zeta. unfold evaluate_spec.
    destruct (List.find (fun r => rule_matches r t c) rule_order) as [r|];
      cbn [fmap option_fmap option_map banner_for].
    + destruct (alert_fields r) as (text & co & Ht & Hco & _).
      rewrite Ht, Hco.
      destruct (texts_format resp); cbn [fst snd].
      * split; [reflexivity|]. split; [|reflexivity].
        intros _. repeat split.
      * split; [reflexivity|]. split; [discriminate|reflexivity].
    + destruct (texts_format resp); cbn [fst snd].
      * split; [reflexivity|]. split; [|reflexivity].
        intros _. do 6 (split; [reflexivity|]). discriminate.
      * split; [reflexivity|]. split; [discriminate|reflexivity].
  - rewrite !(display_weather_handler_raises resp _ e Hin). cbn [fst snd].
    split; [reflexivity|]. split; [discriminate|reflexivity].
Qed.

Lemma display_weather_depends_on_response_only_witness :
  page_bgcolor
    (after (display_weather_handler
       {| data_of :=
            {| main := Some {| temp := Some (PyFloat (float_lit 30)) |};
               weather := Some [ {| entry_id := Some 800 |} ] |};
          texts_format := true |}) initial_widgets)
  = page_bgcolor
      (after (display_weather_handler
         {| data_of :=
              {| main := Some {| temp := Some (PyFloat (float_lit 30)) |};
                 weather := Some [ {| entry_id := Some 800 |} ] |};
            texts_format := true |})
         (error_view "City not found" initial_widgets)).
Proof.
  exact (proj1 (proj1 (proj2 (display_weather_depends_on_response_only
    {| data_of :=
         {| main := Some {| temp := Some (PyFloat (float_lit 30)) |};
            weather := Some [ {| entry_id := Some 800 |} ] |};
       texts_format := true |}
    initial_widgets (error_view "City not found" initial_widgets)))
    eq_refl)).
Defined.
